(** * orb_slam_2_ros: the ROS interface of ORB_SLAM2

    A shallow embedding of [src/library/interface.cpp]: the methods of
    [orb_slam_2_interface::OrbSlam2Interface] as functions over an explicit
    state (the interface object and the part of the ROS node it acts on),
    with glog's fatal checks as an outcome of their own.

    Eigen, minkindr, tf, PCL and roscpp are libraries the file calls; their
    types and conversions are the fields of the class [External]. *)

From Stdlib Require Import ZArith QArith String List Bool Lia.
From stdpp Require Import base option list strings gmap.
Import ListNotations.

Local Open Scope Z_scope.
Local Open Scope string_scope.

(** ** Outcomes: normal return, a fatal glog check, undefined behaviour *)

(** What a failed glog check reports: the checked expression and the text
    streamed into it. *)
Record CheckFailure := { check_expr : string; check_text : string }.

Inductive Outcome (A : Type) : Type :=
| Done (a : A)
| Fatal (c : CheckFailure)
| Undefined.
Arguments Done {A} a.
Arguments Fatal {A} c.
Arguments Undefined {A}.

Definition is_fatal {A} (o : Outcome A) : bool :=
  match o with Fatal _ => true | _ => false end.

(** A method body: a state transformer that may stop in a fatal check, or
    in undefined behaviour. *)
Definition Method (S A : Type) : Type := S -> Outcome (A * S).

Definition ret {S A} (a : A) : Method S A := fun s => Done (a, s).

Definition bind {S A B} (m : Method S A) (k : A -> Method S B) : Method S B :=
  fun s => match m s with
           | Done (a, s') => k a s'
           | Fatal c => Fatal c
           | Undefined => Undefined
           end.

Definition gets {S A} (f : S -> A) : Method S A := fun s => Done (f s, s).
Definition modify {S} (f : S -> S) : Method S unit := fun s => Done (tt, f s).
Definition abort {S A} (c : CheckFailure) : Method S A := fun _ => Fatal c.

Declare Scope method_scope.
Delimit Scope method_scope with method.
Notation "x <~ c ;; k" := (bind c (fun x => k))
  (at level 20, c at level 99, k at level 200) : method_scope.
Notation "'do' c ;; k" := (bind c (fun _ => k))
  (at level 20, c at level 99, k at level 200) : method_scope.

(** glog: [CHECK(cond) << text] aborts the process when [cond] is false. *)
Definition CHECK {S} (cond : bool) (expr text : string) : Method S unit :=
  if cond then ret tt else abort {| check_expr := expr; check_text := text |}.

(** glog: [CHECK_EQ(a, b)]. *)
Definition CHECK_EQ {S} (a b : Z) (expr : string) : Method S unit :=
  CHECK (Z.eqb a b) expr EmptyString.

(** glog: [CHECK_NOTNULL(p)]; a pointer is [None] when null. *)
Definition CHECK_NOTNULL {S A} (p : option A) (expr : string) : Method S A :=
  match p with
  | Some a => ret a
  | None => abort {| check_expr := expr; check_text := "Must be non NULL" |}
  end.

(** ** Data of the libraries the interface is written against *)

(** Eigen: fixed-size vectors and matrices over a scalar type. *)
Record Vector3 (A : Type) : Type := { vx : A; vy : A; vz : A }.
Arguments vx {A} _.
Arguments vy {A} _.
Arguments vz {A} _.

Record Matrix3 (A : Type) : Type :=
  { a00 : A; a01 : A; a02 : A;
    a10 : A; a11 : A; a12 : A;
    a20 : A; a21 : A; a22 : A }.

Record Matrix4 (A : Type) : Type :=
  { e00 : A; e01 : A; e02 : A; e03 : A;
    e10 : A; e11 : A; e12 : A; e13 : A;
    e20 : A; e21 : A; e22 : A; e23 : A;
    e30 : A; e31 : A; e32 : A; e33 : A }.
Arguments e00 {A} _.
Arguments e01 {A} _.
Arguments e02 {A} _.
Arguments e03 {A} _.
Arguments e10 {A} _.
Arguments e11 {A} _.
Arguments e12 {A} _.
Arguments e13 {A} _.
Arguments e20 {A} _.
Arguments e21 {A} _.
Arguments e22 {A} _.
Arguments e23 {A} _.
Arguments e30 {A} _.
Arguments e31 {A} _.
Arguments e32 {A} _.
Arguments e33 {A} _.

(** [M.cast<B>()]: the scalar conversion applied to every coefficient. *)
Definition Matrix4_cast {A B} (f : A -> B) (m : Matrix4 A) : Matrix4 B :=
  {| e00 := f (e00 m); e01 := f (e01 m); e02 := f (e02 m); e03 := f (e03 m);
     e10 := f (e10 m); e11 := f (e11 m); e12 := f (e12 m); e13 := f (e13 m);
     e20 := f (e20 m); e21 := f (e21 m); e22 := f (e22 m); e23 := f (e23 m);
     e30 := f (e30 m); e31 := f (e31 m); e32 := f (e32 m); e33 := f (e33 m) |}.

(** [M.block<3, 3>(0, 0)] *)
Definition block33 {A} (m : Matrix4 A) : Matrix3 A :=
  {| a00 := e00 m; a01 := e01 m; a02 := e02 m;
     a10 := e10 m; a11 := e11 m; a12 := e12 m;
     a20 := e20 m; a21 := e21 m; a22 := e22 m |}.

(** [M.block<3, 1>(0, 3)] *)
Definition block31 {A} (m : Matrix4 A) : Vector3 A :=
  {| vx := e03 m; vy := e13 m; vz := e23 m |}.

(** OpenCV: a dense, continuous [cv::Mat] of one channel, stored row by row.
    [mat_ok] is the invariant every [cv::Mat] keeps: the sizes are not
    negative and the buffer holds [rows * cols] elements. *)
Definition Mat_sizes_ok {A} (rows cols : Z) (data : list A) : bool :=
  (0 <=? rows)%Z && (0 <=? cols)%Z && Z.eqb (Z.of_nat (length data)) (rows * cols).

Record Mat (A : Type) : Type :=
  { rows : Z; cols : Z; data : list A;
    mat_ok : Mat_sizes_ok rows cols data = true }.
Arguments rows {A} _.
Arguments cols {A} _.
Arguments data {A} _.
Arguments mat_ok {A} _.

Definition total {A} (m : Mat A) : Z := rows m * cols m.

(** [cv::Mat::empty()] *)
Definition empty {A} (m : Mat A) : bool := Z.eqb (total m) 0.

(** [m.at<T>(i)] on a continuous matrix: the [i]-th element of the buffer;
    nothing is defined past its end. *)
Definition at_ {A} (m : Mat A) (i : nat) : option A := nth_error (data m) i.

(** [cv::cv2eigen] into a fixed 4x4 Eigen matrix: coefficient (i, j) is the
    element at row [i], column [j] of the source. It is used on sources the
    caller has checked to be 4x4. *)
Definition cv2eigen {A} (m : Mat A) : option (Matrix4 A) :=
  match data m with
  | [x00; x01; x02; x03; x10; x11; x12; x13;
     x20; x21; x22; x23; x30; x31; x32; x33] =>
      Some {| e00 := x00; e01 := x01; e02 := x02; e03 := x03;
              e10 := x10; e11 := x11; e12 := x12; e13 := x13;
              e20 := x20; e21 := x21; e22 := x22; e23 := x23;
              e30 := x30; e31 := x31; e32 := x32; e33 := x33 |}
  | _ => None
  end.

(** ORB_SLAM2: a map point, as far as the interface looks at it. *)
Record MapPoint (A : Type) : Type := { mWorldPos : Mat A }.
Arguments mWorldPos {A} _.

(** [MapPoint::GetWorldPos()] returns a copy of the stored position. *)
Definition GetWorldPos {A} (mp : MapPoint A) : Mat A := mWorldPos mp.

(** PCL: [pcl::PointXYZRGB] and [pcl::PointCloud<pcl::PointXYZRGB>]. *)
Record PointXYZRGB (A : Type) : Type :=
  { x : A; y : A; z : A; r : Z; g : Z; b : Z; a : Z }.
Arguments x {A} _.
Arguments y {A} _.
Arguments z {A} _.
Arguments r {A} _.
Arguments g {A} _.
Arguments b {A} _.
Arguments a {A} _.

Record PointCloud (A : Type) : Type :=
  { points : list (PointXYZRGB A); width : Z; height : Z; is_dense : bool }.
Arguments points {A} _.
Arguments width {A} _.
Arguments height {A} _.
Arguments is_dense {A} _.

(** [new pcl::PointCloud<pcl::PointXYZRGB>]: no points yet. *)
Definition PointCloud_new {A} : PointCloud A :=
  {| points := []; width := 0; height := 0; is_dense := true |}.

(** [cloud->points.push_back(point)] *)
Definition push_back {A} (c : PointCloud A) (p : PointXYZRGB A) : PointCloud A :=
  {| points := points c ++ [p]; width := width c; height := height c;
     is_dense := is_dense c |}.

(** minkindr: [kindr::minimal::QuatTransformation], a rotation quaternion
    and a position. *)
Record QuatTransformation (Quat A : Type) : Type :=
  { getRotation : Quat; getPosition : Vector3 A }.
Arguments getRotation {Quat A} _.
Arguments getPosition {Quat A} _.

(** roscpp: time stamps and [std_msgs::Header]. *)
Record Time := { sec : Z; nsec : Z }.

Record Header := { seq : Z; stamp : Time; frame_id : string }.

Definition set_frame_id (h : Header) (f : string) : Header :=
  {| seq := seq h; stamp := stamp h; frame_id := f |}.

(** [geometry_msgs::TransformStamped], [geometry_msgs::PoseStamped] and
    [sensor_msgs::PointCloud2], over the types of their bodies. *)
Record TransformStamped (TransformMsg : Type) : Type :=
  { ts_header : Header; child_frame_id : string; transform : TransformMsg }.
Arguments ts_header {_} _.
Arguments child_frame_id {_} _.
Arguments transform {_} _.

Record PoseStamped (PoseMsg : Type) : Type :=
  { ps_header : Header; pose : PoseMsg }.
Arguments ps_header {_} _.
Arguments pose {_} _.

Record PointCloud2 (Body : Type) : Type :=
  { pc_header : Header; pc_body : Body }.
Arguments pc_header {_} _.
Arguments pc_body {_} _.

(** [tf::StampedTransform(transform, stamp, frame_id, child_frame_id)] *)
Record StampedTransform (TfTransform : Type) : Type :=
  { st_transform : TfTransform; stamp_ : Time;
    frame_id_of : string; child_frame_id_of : string }.
Arguments st_transform {_} _.
Arguments stamp_ {_} _.
Arguments frame_id_of {_} _.
Arguments child_frame_id_of {_} _.

(** XML-RPC values of the parameter server. *)
Inductive XmlRpcValue :=
| XBoolean (v : bool)
| XInt (v : Z)
| XDouble (v : Q)
| XString (v : string).

(** ** The libraries' operations

    Scalars are the IEEE single and double precision numbers of the C++
    code; the embedding is parametric in them. The conversions of Eigen,
    minkindr, tf and PCL are total functions of their arguments. *)
Class External : Type :=
  { (** [float] and [double], and the conversion [static_cast<double>] *)
    F32 : Type;
    F64 : Type;
    cast : F32 -> F64;
    (** Eigen: [Eigen::AngleAxisd], its constructor from a 3x3 matrix and
        [toRotationMatrix()] *)
    AngleAxisd : Type;
    AngleAxisd_of_matrix : Matrix3 F64 -> AngleAxisd;
    toRotationMatrix : AngleAxisd -> Matrix3 F64;
    (** minkindr: [Quaternion], built from a rotation matrix *)
    Quaternion : Type;
    Quaternion_of_matrix : Matrix3 F64 -> Quaternion;
    (** minkindr_conversions: [tf::transformKindrToMsg],
        [tf::poseKindrToMsg], [tf::transformKindrToTF]; each overwrites the
        whole of its output argument *)
    TransformMsg : Type;
    PoseMsg : Type;
    TfTransform : Type;
    transformKindrToMsg : QuatTransformation Quaternion F64 -> TransformMsg;
    poseKindrToMsg : QuatTransformation Quaternion F64 -> PoseMsg;
    transformKindrToTF : QuatTransformation Quaternion F64 -> TfTransform;
    (** minkindr: the default-constructed [Transformation] *)
    Transformation_new : QuatTransformation Quaternion F64;
    (** PCL: the default-constructed [pcl::PointXYZRGB] *)
    PointXYZRGB_new : PointXYZRGB F32;
    (** pcl_conversions: [pcl::toROSMsg(cloud, msg)] writes into [msg] *)
    CloudBody : Type;
    CloudBody_new : CloudBody;
    toROSMsg : PointCloud F32 -> PointCloud2 CloudBody -> PointCloud2 CloudBody;
    (** interface.hpp: the defaults of the optional parameters *)
    kDefaultVerbose : bool;
    kDefaultFrameId : string;
    kDefaultChildFrameId : string }.

Section Interface.

Context `{Ext : External}.

Definition Transformation : Type := QuatTransformation Quaternion F64.

(** [Transformation(q, t)] *)
Definition Transformation_of (q : Quaternion) (t : Vector3 F64) : Transformation :=
  {| getRotation := q; getPosition := t |}.

(** *** The ROS node, as far as the interface acts on it *)

(** A node handle is known by its namespace. *)
Record NodeHandle := { ns : string }.

(** roscpp resolves a relative name inside the namespace of the handle. *)
Definition resolveName (nh : NodeHandle) (name : string) : string :=
  ns nh ++ "/" ++ name.

Inductive MessageType := TransformStampedT | PoseStampedT | PointCloud2T.

Inductive Message :=
| TransformStampedM (m : TransformStamped TransformMsg)
| PoseStampedM (m : PoseStamped PoseMsg)
| PointCloud2M (m : PointCloud2 CloudBody).

(** What [NodeHandle::advertise<M>(topic, queue_size)] was called with. *)
Record Advertisement :=
  { adv_handle : NodeHandle; adv_type : MessageType;
    adv_topic : string; adv_queue_size : Z }.

(** A [ros::Publisher]: default-constructed it is invalid ([None]); the
    one [advertise] returns refers to its advertisement. *)
Definition Publisher : Type := option Advertisement.

(** The member functions a timer can be bound to. *)
Inductive Callback := publishCurrentPoseAsTF_callback.

(** What [NodeHandle::createTimer(period, callback, this)] was called with;
    the period is in seconds. *)
Record TimerRequest :=
  { timer_handle : NodeHandle; timer_period : Q; timer_callback : Callback }.

Definition Timer : Type := option TimerRequest.

(** [ros::TimerEvent] *)
Record TimerEvent :=
  { last_expected : Time; last_real : Time;
    current_expected : Time; current_real : Time }.

Record Ros :=
  { (** the parameter server, by resolved name *)
    param_server : gmap string XmlRpcValue;
    (** the names asked from the parameter server, oldest first *)
    param_requests : list string;
    advertised : list Advertisement;
    timers : list TimerRequest;
    (** the messages handed to [Publisher::publish], oldest first *)
    published : list (Advertisement * Message);
    (** the transforms handed to [TransformBroadcaster::sendTransform] *)
    broadcast : list (StampedTransform TfTransform);
    (** what [ros::Time::now()] returns *)
    clock : Time }.

(** *** The interface object

    The members are declared in interface.hpp; they are listed here with
    the types the methods use them at. *)

Record OrbSlam2Interface :=
  { nh_ : NodeHandle;
    nh_private_ : NodeHandle;
    T_pub_ : Publisher;
    pose_pub_ : Publisher;
    cloud_pub_ : Publisher;
    tf_timer_ : Timer;
    T_W_C_ : Transformation;
    verbose_ : bool;
    vocabulary_file_path_ : string;
    settings_file_path_ : string;
    frame_id_ : string;
    child_frame_id_ : string }.

(** The state a method runs in: [this] and the node. *)
Record State := { this : OrbSlam2Interface; ros : Ros }.


(** Assignments to the members of [this] and to the parts of the node. *)
Definition set_T_pub_ (v : Publisher) (o : OrbSlam2Interface) : OrbSlam2Interface :=
  {| nh_ := nh_ o; nh_private_ := nh_private_ o; T_pub_ := v;
     pose_pub_ := pose_pub_ o; cloud_pub_ := cloud_pub_ o;
     tf_timer_ := tf_timer_ o; T_W_C_ := T_W_C_ o; verbose_ := verbose_ o;
     vocabulary_file_path_ := vocabulary_file_path_ o;
     settings_file_path_ := settings_file_path_ o;
     frame_id_ := frame_id_ o; child_frame_id_ := child_frame_id_ o |}.

Definition set_pose_pub_ (v : Publisher) (o : OrbSlam2Interface) : OrbSlam2Interface :=
  {| nh_ := nh_ o; nh_private_ := nh_private_ o; T_pub_ := T_pub_ o;
     pose_pub_ := v; cloud_pub_ := cloud_pub_ o;
     tf_timer_ := tf_timer_ o; T_W_C_ := T_W_C_ o; verbose_ := verbose_ o;
     vocabulary_file_path_ := vocabulary_file_path_ o;
     settings_file_path_ := settings_file_path_ o;
     frame_id_ := frame_id_ o; child_frame_id_ := child_frame_id_ o |}.

Definition set_cloud_pub_ (v : Publisher) (o : OrbSlam2Interface) : OrbSlam2Interface :=
  {| nh_ := nh_ o; nh_private_ := nh_private_ o; T_pub_ := T_pub_ o;
     pose_pub_ := pose_pub_ o; cloud_pub_ := v;
     tf_timer_ := tf_timer_ o; T_W_C_ := T_W_C_ o; verbose_ := verbose_ o;
     vocabulary_file_path_ := vocabulary_file_path_ o;
     settings_file_path_ := settings_file_path_ o;
     frame_id_ := frame_id_ o; child_frame_id_ := child_frame_id_ o |}.

Definition set_tf_timer_ (v : Timer) (o : OrbSlam2Interface) : OrbSlam2Interface :=
  {| nh_ := nh_ o; nh_private_ := nh_private_ o; T_pub_ := T_pub_ o;
     pose_pub_ := pose_pub_ o; cloud_pub_ := cloud_pub_ o;
     tf_timer_ := v; T_W_C_ := T_W_C_ o; verbose_ := verbose_ o;
     vocabulary_file_path_ := vocabulary_file_path_ o;
     settings_file_path_ := settings_file_path_ o;
     frame_id_ := frame_id_ o; child_frame_id_ := child_frame_id_ o |}.

Definition set_verbose_ (v : bool) (o : OrbSlam2Interface) : OrbSlam2Interface :=
  {| nh_ := nh_ o; nh_private_ := nh_private_ o; T_pub_ := T_pub_ o;
     pose_pub_ := pose_pub_ o; cloud_pub_ := cloud_pub_ o;
     tf_timer_ := tf_timer_ o; T_W_C_ := T_W_C_ o; verbose_ := v;
     vocabulary_file_path_ := vocabulary_file_path_ o;
     settings_file_path_ := settings_file_path_ o;
     frame_id_ := frame_id_ o; child_frame_id_ := child_frame_id_ o |}.

Definition set_vocabulary_file_path_ (v : string) (o : OrbSlam2Interface) : OrbSlam2Interface :=
  {| nh_ := nh_ o; nh_private_ := nh_private_ o; T_pub_ := T_pub_ o;
     pose_pub_ := pose_pub_ o; cloud_pub_ := cloud_pub_ o;
     tf_timer_ := tf_timer_ o; T_W_C_ := T_W_C_ o; verbose_ := verbose_ o;
     vocabulary_file_path_ := v;
     settings_file_path_ := settings_file_path_ o;
     frame_id_ := frame_id_ o; child_frame_id_ := child_frame_id_ o |}.

Definition set_settings_file_path_ (v : string) (o : OrbSlam2Interface) : OrbSlam2Interface :=
  {| nh_ := nh_ o; nh_private_ := nh_private_ o; T_pub_ := T_pub_ o;
     pose_pub_ := pose_pub_ o; cloud_pub_ := cloud_pub_ o;
     tf_timer_ := tf_timer_ o; T_W_C_ := T_W_C_ o; verbose_ := verbose_ o;
     vocabulary_file_path_ := vocabulary_file_path_ o;
     settings_file_path_ := v;
     frame_id_ := frame_id_ o; child_frame_id_ := child_frame_id_ o |}.

Definition set_frame_id_ (v : string) (o : OrbSlam2Interface) : OrbSlam2Interface :=
  {| nh_ := nh_ o; nh_private_ := nh_private_ o; T_pub_ := T_pub_ o;
     pose_pub_ := pose_pub_ o; cloud_pub_ := cloud_pub_ o;
     tf_timer_ := tf_timer_ o; T_W_C_ := T_W_C_ o; verbose_ := verbose_ o;
     vocabulary_file_path_ := vocabulary_file_path_ o;
     settings_file_path_ := settings_file_path_ o;
     frame_id_ := v; child_frame_id_ := child_frame_id_ o |}.

Definition set_child_frame_id_ (v : string) (o : OrbSlam2Interface) : OrbSlam2Interface :=
  {| nh_ := nh_ o; nh_private_ := nh_private_ o; T_pub_ := T_pub_ o;
     pose_pub_ := pose_pub_ o; cloud_pub_ := cloud_pub_ o;
     tf_timer_ := tf_timer_ o; T_W_C_ := T_W_C_ o; verbose_ := verbose_ o;
     vocabulary_file_path_ := vocabulary_file_path_ o;
     settings_file_path_ := settings_file_path_ o;
     frame_id_ := frame_id_ o; child_frame_id_ := v |}.

Definition on_this (f : OrbSlam2Interface -> OrbSlam2Interface) (s : State) : State :=
  {| this := f (this s); ros := ros s |}.

Definition on_ros (f : Ros -> Ros) (s : State) : State :=
  {| this := this s; ros := f (ros s) |}.

Definition log_param_request (name : string) (n : Ros) : Ros :=
  {| param_server := param_server n;
     param_requests := param_requests n ++ [name];
     advertised := advertised n; timers := timers n;
     published := published n; broadcast := broadcast n; clock := clock n |}.

Definition log_advertised (adv : Advertisement) (n : Ros) : Ros :=
  {| param_server := param_server n; param_requests := param_requests n;
     advertised := advertised n ++ [adv]; timers := timers n;
     published := published n; broadcast := broadcast n; clock := clock n |}.

Definition log_timer (t : TimerRequest) (n : Ros) : Ros :=
  {| param_server := param_server n; param_requests := param_requests n;
     advertised := advertised n; timers := timers n ++ [t];
     published := published n; broadcast := broadcast n; clock := clock n |}.

Definition log_published (adv : Advertisement) (m : Message) (n : Ros) : Ros :=
  {| param_server := param_server n; param_requests := param_requests n;
     advertised := advertised n; timers := timers n;
     published := published n ++ [(adv, m)];
     broadcast := broadcast n; clock := clock n |}.

Definition log_broadcast (t : StampedTransform TfTransform) (n : Ros) : Ros :=
  {| param_server := param_server n; param_requests := param_requests n;
     advertised := advertised n; timers := timers n;
     published := published n; broadcast := broadcast n ++ [t];
     clock := clock n |}.

Definition set_clock (t : Time) (n : Ros) : Ros :=
  {| param_server := param_server n; param_requests := param_requests n;
     advertised := advertised n; timers := timers n;
     published := published n; broadcast := broadcast n; clock := t |}.

Local Open Scope method_scope.

(** *** roscpp and tf calls *)

(** [nh.advertise<M>(topic, queue_size)] *)
Definition advertise (nh : NodeHandle) (ty : MessageType) (topic : string)
    (queue_size : Z) : Method State Publisher :=
  let adv := {| adv_handle := nh; adv_type := ty; adv_topic := topic;
                adv_queue_size := queue_size |} in
  do modify (on_ros (log_advertised adv));;
  ret (Some adv).

(** [nh.createTimer(ros::Duration(period), callback, this)] *)
Definition createTimer (nh : NodeHandle) (period : Q) (cb : Callback)
    : Method State Timer :=
  let t := {| timer_handle := nh; timer_period := period;
              timer_callback := cb |} in
  do modify (on_ros (log_timer t));;
  ret (Some t).

(** [pub.publish(msg)]; roscpp asserts that the publisher is valid. *)
Definition publish (pub : Publisher) (m : Message) : Method State unit :=
  match pub with
  | Some adv => modify (on_ros (log_published adv m))
  | None => abort {| check_expr := "ROS_ASSERT";
                     check_text := "Call to publish() on an invalid Publisher" |}
  end.

(** [tf_broadcaster_.sendTransform(t)] *)
Definition sendTransform (t : StampedTransform TfTransform) : Method State unit :=
  modify (on_ros (log_broadcast t)).

(** [ros::Time::now()] *)
Definition Time_now : Method State Time := gets (fun s => clock (ros s)).

(** The value a parameter has on the server, the request being logged. *)
Definition getParamValue (nh : NodeHandle) (key : string)
    : Method State (option XmlRpcValue) :=
  let name := resolveName nh key in
  do modify (on_ros (log_param_request name));;
  gets (fun s => param_server (ros s) !! name).

(** [nh.getParam(key, s)] for a [std::string] member: true, and the member
    assigned, when the parameter exists and is a string; false, and the
    member untouched, otherwise. *)
Definition getParam_string (nh : NodeHandle) (key : string)
    (assign : string -> OrbSlam2Interface -> OrbSlam2Interface)
    : Method State bool :=
  v <~ getParamValue nh key;;
  match v with
  | Some (XString str) => do modify (on_this (assign str));; ret true
  | _ => ret false
  end.

(** [nh.getParam(key, b)] for a [bool] member. *)
Definition getParam_bool (nh : NodeHandle) (key : string)
    (assign : bool -> OrbSlam2Interface -> OrbSlam2Interface)
    : Method State bool :=
  v <~ getParamValue nh key;;
  match v with
  | Some (XBoolean bv) => do modify (on_this (assign bv));; ret true
  | _ => ret false
  end.

(** An access that is undefined when there is nothing to read. *)
Definition defined {S A} (o : option A) : Method S A :=
  match o with Some v => ret v | None => fun _ => Undefined end.

(** *** The methods of [OrbSlam2Interface] *)

Definition advertiseTopics : Method State unit :=
  nh_private <~ gets (fun s => nh_private_ (this s));;
  p <~ advertise nh_private TransformStampedT "transform_cam" 1;;
  do modify (on_this (set_T_pub_ p));;
  p <~ advertise nh_private PoseStampedT "pose_cam" 1;;
  do modify (on_this (set_pose_pub_ p));;
  p <~ advertise nh_private PointCloud2T "keypoints_cloud" 1;;
  do modify (on_this (set_cloud_pub_ p));;
  nh <~ gets (fun s => nh_ (this s));;
  t <~ createTimer nh (1 # 100)%Q publishCurrentPoseAsTF_callback;;
  modify (on_this (set_tf_timer_ t)).

Definition getParametersFromRos : Method State unit :=
  nh_private <~ gets (fun s => nh_private_ (this s));;
  found <~ getParam_string nh_private "vocabulary_file_path"
             set_vocabulary_file_path_;;
  do CHECK found
       "nh_private_.getParam('vocabulary_file_path', vocabulary_file_path_)"
       "Please provide the vocabulary_file_path as a ros param.";;
  found <~ getParam_string nh_private "settings_file_path"
             set_settings_file_path_;;
  do CHECK found
       "nh_private_.getParam('settings_file_path', settings_file_path_)"
       "Please provide the settings_file_path as a ros param.";;
  _ <~ getParam_bool nh_private "verbose" set_verbose_;;
  _ <~ getParam_string nh_private "frame_id" set_frame_id_;;
  _ <~ getParam_string nh_private "child_frame_id" set_child_frame_id_;;
  ret tt.

(** The constructor: the member initialisers, then the two calls of its
    body. The members it does not name are default-constructed. *)
Definition OrbSlam2Interface_new (nh nh_private : NodeHandle)
    : Ros -> Outcome (OrbSlam2Interface * Ros) :=
  fun n =>
    let o := {| nh_ := nh; nh_private_ := nh_private;
                T_pub_ := None; pose_pub_ := None; cloud_pub_ := None;
                tf_timer_ := None; T_W_C_ := Transformation_new;
                verbose_ := kDefaultVerbose;
                vocabulary_file_path_ := EmptyString;
                settings_file_path_ := EmptyString;
                frame_id_ := kDefaultFrameId;
                child_frame_id_ := kDefaultChildFrameId |} in
    match (do advertiseTopics;; getParametersFromRos) {| this := o; ros := n |} with
    | Done (_, s) => Done (this s, ros s)
    | Fatal c => Fatal c
    | Undefined => Undefined
    end.

Definition publishCurrentPose (T : Transformation) (header : Header)
    : Method State unit :=
  child <~ gets (fun s => child_frame_id_ (this s));;
  let msg := {| ts_header := header;
                child_frame_id := child;
                transform := transformKindrToMsg T |} in
  pub <~ gets (fun s => T_pub_ (this s));;
  publish pub (TransformStampedM msg).

Definition publishCurrentPoseAsPose (T : Transformation) (header : Header)
    : Method State unit :=
  let msg_header := header in
  let msg_header := set_frame_id msg_header "world" in
  let msg := {| ps_header := msg_header; pose := poseKindrToMsg T |} in
  pub <~ gets (fun s => pose_pub_ (this s));;
  publish pub (PoseStampedM msg).

Definition publishCurrentPoseAsTF (event : TimerEvent) : Method State unit :=
  T <~ gets (fun s => T_W_C_ (this s));;
  let tf_transform := transformKindrToTF T in
  now <~ Time_now;;
  parent <~ gets (fun s => frame_id_ (this s));;
  child <~ gets (fun s => child_frame_id_ (this s));;
  sendTransform {| st_transform := tf_transform; stamp_ := now;
                   frame_id_of := parent; child_frame_id_of := child |}.

(** The assignments to [point] in the loop of [publishPointCloud]. *)
Definition set_xyz (p : PointXYZRGB F32) (vx vy vz : F32) : PointXYZRGB F32 :=
  {| x := vx; y := vy; z := vz; r := r p; g := g p; b := b p; a := a p |}.

Definition set_rgb (p : PointXYZRGB F32) (vr vg vb : Z) : PointXYZRGB F32 :=
  {| x := x p; y := y p; z := z p; r := vr; g := vg; b := vb; a := a p |}.

(** One pass through the body of the range-for of [publishPointCloud], on
    the locals [point] and [cloud]; [None] when it reads past the end of a
    world position. *)
Definition cloud_loop_body (mp : option (MapPoint F32))
    (locals : PointXYZRGB F32 * PointCloud F32)
    : option (PointXYZRGB F32 * PointCloud F32) :=
  let '(point, cloud) := locals in
  match mp with
  | None => Some locals
  | Some mp =>
      let worldPos := GetWorldPos mp in
      if empty worldPos then Some locals
      else
        match at_ worldPos 0, at_ worldPos 1, at_ worldPos 2 with
        | Some w0, Some w1, Some w2 =>
            let point := set_xyz point w0 w1 w2 in
            let point := set_rgb point 255 255 255 in
            Some (point, push_back cloud point)
        | _, _, _ => None
        end
  end.

Fixpoint cloud_loop (mapPoints : list (option (MapPoint F32)))
    (locals : PointXYZRGB F32 * PointCloud F32)
    : option (PointXYZRGB F32 * PointCloud F32) :=
  match mapPoints with
  | [] => Some locals
  | mp :: rest =>
      match cloud_loop_body mp locals with
      | Some locals' => cloud_loop rest locals'
      | None => None
      end
  end.

Definition publishPointCloud (mapPoints : list (option (MapPoint F32)))
    (header : Header) : Method State unit :=
  let cloud := PointCloud_new in
  let point := PointXYZRGB_new in
  locals <~ defined (cloud_loop mapPoints (point, cloud));;
  let cloud := snd locals in
  let cloudMsg := {| pc_header := header; pc_body := CloudBody_new |} in
  let cloudMsg := toROSMsg cloud cloudMsg in
  let cloudMsg := {| pc_header := set_frame_id (pc_header cloudMsg) "world";
                     pc_body := pc_body cloudMsg |} in
  pub <~ gets (fun s => cloud_pub_ (this s));;
  publish pub (PointCloud2M cloudMsg).

(** [T_kindr] is the output pointer: [None] when null, otherwise the
    object it points to. The method returns what it stores through the
    pointer; it uses neither [this] nor the node. *)
Definition convertOrbSlamPoseToKindr {S : Type} (T_cv : Mat F32)
    (T_kindr : option Transformation) : Method S Transformation :=
  _ <~ CHECK_NOTNULL T_kindr "T_kindr";;
  do CHECK_EQ (cols T_cv) 4 "T_cv.cols == 4";;
  do CHECK_EQ (rows T_cv) 4 "T_cv.rows == 4";;
  T_eigen_f <~ defined (cv2eigen T_cv);;
  let T_eigen_d := Matrix4_cast cast T_eigen_f in
  let R_unnormalized := block33 T_eigen_d in
  let aa := AngleAxisd_of_matrix R_unnormalized in
  let R := toRotationMatrix aa in
  let q_kindr := Quaternion_of_matrix R in
  let t_kindr := block31 T_eigen_d in
  ret (Transformation_of q_kindr t_kindr).

(** *** The timer *)

Definition run_callback (cb : Callback) (event : TimerEvent) : Method State unit :=
  match cb with
  | publishCurrentPoseAsTF_callback => publishCurrentPoseAsTF event
  end.

(** One firing of the timer [tf_timer_] holds, at the time [now] of the
    node's clock: roscpp calls the callback the timer was created with. *)
Definition fire_tf_timer (now : Time) (event : TimerEvent) : Method State unit :=
  do modify (on_ros (set_clock now));;
  t <~ gets (fun s => tf_timer_ (this s));;
  match t with
  | Some req => run_callback (timer_callback req) event
  | None => ret tt
  end.

(** The firings of a run of the node, in order. *)
Fixpoint fire_tf_timer_all (firings : list (Time * TimerEvent))
    : Method State unit :=
  match firings with
  | [] => ret tt
  | (now, event) :: rest =>
      do fire_tf_timer now event;; fire_tf_timer_all rest
  end.

End Interface.

(** * What the methods are expected to do *)

Section Specification.

Context `{Ext : External}.

(** ** Topics and timer *)

(** The three advertisements and the timer request of [advertiseTopics]. *)
Definition transform_cam_adv (o : OrbSlam2Interface) : Advertisement :=
  {| adv_handle := nh_private_ o; adv_type := TransformStampedT;
     adv_topic := "transform_cam"; adv_queue_size := 1 |}.

Definition pose_cam_adv (o : OrbSlam2Interface) : Advertisement :=
  {| adv_handle := nh_private_ o; adv_type := PoseStampedT;
     adv_topic := "pose_cam"; adv_queue_size := 1 |}.

Definition keypoints_cloud_adv (o : OrbSlam2Interface) : Advertisement :=
  {| adv_handle := nh_private_ o; adv_type := PointCloud2T;
     adv_topic := "keypoints_cloud"; adv_queue_size := 1 |}.

Definition tf_timer_request (o : OrbSlam2Interface) : TimerRequest :=
  {| timer_handle := nh_ o; timer_period := (1 # 100)%Q;
     timer_callback := publishCurrentPoseAsTF_callback |}.

Definition with_topics (o : OrbSlam2Interface) : OrbSlam2Interface :=
  set_tf_timer_ (Some (tf_timer_request o))
    (set_cloud_pub_ (Some (keypoints_cloud_adv o))
       (set_pose_pub_ (Some (pose_cam_adv o))
          (set_T_pub_ (Some (transform_cam_adv o)) o))).

Definition node_with_topics (o : OrbSlam2Interface) (n : Ros) : Ros :=
  log_timer (tf_timer_request o)
    (log_advertised (keypoints_cloud_adv o)
       (log_advertised (pose_cam_adv o)
          (log_advertised (transform_cam_adv o) n))).

(** ** The timer callback *)

(** The stored pose, stamped at [now] between the configured frames. *)
Definition current_pose_stamped (o : OrbSlam2Interface) (now : Time)
    : StampedTransform TfTransform :=
  {| st_transform := transformKindrToTF (T_W_C_ o); stamp_ := now;
     frame_id_of := frame_id_ o; child_frame_id_of := child_frame_id_ o |}.

(** ** The point cloud *)

(** The entries of the input that the loop does not skip. *)
Definition in_cloud (mp : option (MapPoint F32)) : bool :=
  match mp with
  | Some p => negb (empty (GetWorldPos p))
  | None => false
  end.

(** [pt] is the point of the entry [mp]: its coordinates are the first
    three elements of the world position, and it is white. *)
Definition point_of (mp : option (MapPoint F32)) (pt : PointXYZRGB F32) : Prop :=
  exists p, mp = Some p /\
    at_ (GetWorldPos p) 0 = Some (x pt) /\
    at_ (GetWorldPos p) 1 = Some (y pt) /\
    at_ (GetWorldPos p) 2 = Some (z pt) /\
    r pt = 255 /\ g pt = 255 /\ b pt = 255.

(** A world position that is not empty has the three coordinates (ORB_SLAM2
    keeps world positions as 3x1 matrices). *)
Definition has_coordinates (mp : option (MapPoint F32)) : Prop :=
  forall p, mp = Some p -> empty (GetWorldPos p) = false ->
            3 <= total (GetWorldPos p).

(** The message [publishPointCloud] makes of a cloud and a header. *)
Definition cloud_message (cloud : PointCloud F32) (header : Header)
    : PointCloud2 CloudBody :=
  let msg := toROSMsg cloud {| pc_header := header; pc_body := CloudBody_new |} in
  {| pc_header := set_frame_id (pc_header msg) "world"; pc_body := pc_body msg |}.

(** ** Parameters *)

(** What [getParam] retrieves for a string and for a bool member. *)
Definition string_param (n : Ros) (name : string) : option string :=
  match param_server n !! name with
  | Some (XString v) => Some v
  | _ => None
  end.

Definition bool_param (n : Ros) (name : string) : option bool :=
  match param_server n !! name with
  | Some (XBoolean v) => Some v
  | _ => None
  end.

Definition required_params : list string :=
  ["vocabulary_file_path"; "settings_file_path"].

Definition optional_params : list string :=
  ["verbose"; "frame_id"; "child_frame_id"].

(** The two required parameters can be retrieved as strings. *)
Definition required_retrieved (nh_private : NodeHandle) (n : Ros) : bool :=
  bool_decide (is_Some (string_param n (resolveName nh_private "vocabulary_file_path")))
  && bool_decide (is_Some (string_param n (resolveName nh_private "settings_file_path"))).

(** The parameter [key] is not on the server. *)
Definition absent (nh_private : NodeHandle) (n : Ros) (key : string) : Prop :=
  param_server n !! resolveName nh_private key = None.

Definition assign_if {A : Type} (v : option A)
    (assign : A -> OrbSlam2Interface -> OrbSlam2Interface)
    (o : OrbSlam2Interface) : OrbSlam2Interface :=
  match v with Some w => assign w o | None => o end.

Definition log_param_requests (names : list string) (n : Ros) : Ros :=
  fold_left (fun n name => log_param_request name n) names n.

(** The members after a run of [getParametersFromRos] that passed the two
    checks with the values [voc] and [settings]. *)
Definition with_parameters (o : OrbSlam2Interface) (n : Ros)
    (voc settings : string) : OrbSlam2Interface :=
  let name := resolveName (nh_private_ o) in
  assign_if (string_param n (name "child_frame_id")) set_child_frame_id_
    (assign_if (string_param n (name "frame_id")) set_frame_id_
       (assign_if (bool_param n (name "verbose")) set_verbose_
          (set_settings_file_path_ settings
             (set_vocabulary_file_path_ voc o)))).

(** ** The point cloud as a function of the input *)

(** An entry the loop does not skip but whose world position is too short
    to hold three coordinates. *)
Definition short_position (mp : option (MapPoint F32)) : bool :=
  match mp with
  | Some p => negb (empty (GetWorldPos p)) && (total (GetWorldPos p) <? 3)%Z
  | None => false
  end.

(** The points of the entries, without a loop variable: [alpha] is the
    fourth colour channel, which the loop never assigns. *)
Fixpoint points_from (alpha : Z) (mapPoints : list (option (MapPoint F32)))
    : option (list (PointXYZRGB F32)) :=
  match mapPoints with
  | [] => Some []
  | mp :: rest =>
      if in_cloud mp then
        match mp with
        | Some p =>
            match at_ (GetWorldPos p) 0, at_ (GetWorldPos p) 1,
                  at_ (GetWorldPos p) 2 with
            | Some w0, Some w1, Some w2 =>
                match points_from alpha rest with
                | Some pts =>
                    Some ({| x := w0; y := w1; z := w2;
                             r := 255; g := 255; b := 255; a := alpha |} :: pts)
                | None => None
                end
            | _, _, _ => None
            end
        | None => None
        end
      else points_from alpha rest
  end.

(** The cloud the loop of [publishPointCloud] leaves in [cloud]. *)
Definition built_cloud (mapPoints : list (option (MapPoint F32)))
    : option (PointCloud F32) :=
  match cloud_loop mapPoints (PointXYZRGB_new, PointCloud_new) with
  | Some (_, cloud) => Some cloud
  | None => None
  end.

Definition is_undefined {A : Type} (o : Outcome A) : bool :=
  match o with Undefined => true | _ => false end.

(** ** Parameters, continued *)

(** The text of the two checks of [getParametersFromRos]. *)
Definition vocabulary_check : CheckFailure :=
  {| check_expr :=
       "nh_private_.getParam('vocabulary_file_path', vocabulary_file_path_)";
     check_text := "Please provide the vocabulary_file_path as a ros param." |}.

Definition settings_check : CheckFailure :=
  {| check_expr :=
       "nh_private_.getParam('settings_file_path', settings_file_path_)";
     check_text := "Please provide the settings_file_path as a ros param." |}.

(** Two nodes whose parameter servers hold the same values under the five
    names the interface asks for. *)
Definition same_parameters (nh_private : NodeHandle) (n1 n2 : Ros) : Prop :=
  Forall (fun key => param_server n1 !! resolveName nh_private key =
                     param_server n2 !! resolveName nh_private key)
    (required_params ++ optional_params).

End Specification.

(** * A small node, for examples *)

(** Rational numbers stand for both precisions, and the conversions of the
    libraries keep what they are given. *)
Definition example_ext : External :=
  {| F32 := Q; F64 := Q; cast := fun v => v;
     AngleAxisd := Matrix3 Q;
     AngleAxisd_of_matrix := fun m => m;
     toRotationMatrix := fun m => m;
     Quaternion := Matrix3 Q;
     Quaternion_of_matrix := fun m => m;
     TransformMsg := QuatTransformation (Matrix3 Q) Q;
     PoseMsg := QuatTransformation (Matrix3 Q) Q;
     TfTransform := QuatTransformation (Matrix3 Q) Q;
     transformKindrToMsg := fun T => T;
     poseKindrToMsg := fun T => T;
     transformKindrToTF := fun T => T;
     Transformation_new :=
       {| getRotation := {| a00 := 1%Q; a01 := 0%Q; a02 := 0%Q;
                            a10 := 0%Q; a11 := 1%Q; a12 := 0%Q;
                            a20 := 0%Q; a21 := 0%Q; a22 := 1%Q |};
          getPosition := {| vx := 0%Q; vy := 0%Q; vz := 0%Q |} |};
     PointXYZRGB_new :=
       {| x := 0%Q; y := 0%Q; z := 0%Q; r := 0; g := 0; b := 0; a := 255 |};
     CloudBody := list (PointXYZRGB Q);
     CloudBody_new := [];
     toROSMsg := fun cloud msg =>
       {| pc_header := {| seq := 0; stamp := {| sec := 0; nsec := 0 |};
                          frame_id := EmptyString |};
          pc_body := points cloud |};
     kDefaultVerbose := true;
     kDefaultFrameId := "world";
     kDefaultChildFrameId := "cam0" |}.

Definition example_nh : NodeHandle := {| ns := EmptyString |}.

Definition example_nh_private : NodeHandle := {| ns := "/orb_slam_2_ros_node" |}.

Definition example_params : gmap string XmlRpcValue :=
  <["/orb_slam_2_ros_node/vocabulary_file_path" := XString "ORBvoc.txt"]>
    (<["/orb_slam_2_ros_node/settings_file_path" := XString "euroc.yaml"]>
       (<["/orb_slam_2_ros_node/frame_id" := XString "map"]> ∅)).

Definition example_node : Ros (Ext := example_ext) :=
  {| param_server := example_params; param_requests := [];
     advertised := []; timers := []; published := []; broadcast := [];
     clock := {| sec := 0; nsec := 0 |} |}.

(** The same node without the settings path. *)
Definition example_node_without_settings : Ros (Ext := example_ext) :=
  {| param_server :=
       delete "/orb_slam_2_ros_node/settings_file_path" example_params;
     param_requests := []; advertised := []; timers := []; published := [];
     broadcast := []; clock := {| sec := 0; nsec := 0 |} |}.

(** The object the constructor makes on [example_node], and the node after
    it. *)
Definition example_this : OrbSlam2Interface (Ext := example_ext) :=
  let o := {| nh_ := example_nh; nh_private_ := example_nh_private;
              T_pub_ := None; pose_pub_ := None; cloud_pub_ := None;
              tf_timer_ := None;
              T_W_C_ := Transformation_new (External := example_ext);
              verbose_ := true;
              vocabulary_file_path_ := "ORBvoc.txt";
              settings_file_path_ := "euroc.yaml";
              frame_id_ := "map"; child_frame_id_ := "cam0" |} in
  with_topics (Ext := example_ext) o.

Definition example_constructed : State (Ext := example_ext) :=
  {| this := example_this;
     ros := log_param_requests (Ext := example_ext)
              (map (resolveName example_nh_private)
                 (required_params ++ optional_params))
              (node_with_topics (Ext := example_ext) example_this example_node) |}.

Definition example_header : Header :=
  {| seq := 7; stamp := {| sec := 1403636579; nsec := 763555584 |};
     frame_id := "cam0" |}.

(** A 3x1 world position. *)
Definition example_worldPos (c0 c1 c2 : Q) : Mat Q :=
  {| rows := 3; cols := 1; data := [c0; c1; c2]; mat_ok := eq_refl |}.

(** The world position of a map point that has none. *)
Definition example_noPos : Mat Q :=
  {| rows := 0; cols := 0; data := []; mat_ok := eq_refl |}.

(** A non-empty matrix that is too short to be a world position. *)
Definition example_shortPos : Mat Q :=
  {| rows := 2; cols := 1; data := [1%Q; 2%Q]; mat_ok := eq_refl |}.

Definition example_mapPoints : list (option (MapPoint Q)) :=
  [Some {| mWorldPos := example_worldPos 1 2 3 |};
   None;
   Some {| mWorldPos := example_noPos |};
   Some {| mWorldPos := example_worldPos (1 # 2) (-4) 6 |}].

(** A pose of the camera: a quarter turn about the z axis, moved to
    (1, 2, 3). *)
Definition example_T_cv : Mat Q :=
  {| rows := 4; cols := 4;
     data := [0; -1; 0; 1;
              1;  0; 0; 2;
              0;  0; 1; 3;
              0;  0; 0; 1]%Q;
     mat_ok := eq_refl |}.

(** A matrix with three rows only. *)
Definition example_T_3x4 : Mat Q :=
  {| rows := 3; cols := 4;
     data := [0; -1; 0; 1;
              1;  0; 0; 2;
              0;  0; 1; 3]%Q;
     mat_ok := eq_refl |}.

(** The pose [example_T_cv] stands for. *)
Definition example_pose : Transformation (Ext := example_ext) :=
  {| getRotation := {| a00 := 0%Q; a01 := (-1)%Q; a02 := 0%Q;
                       a10 := 1%Q; a11 := 0%Q; a12 := 0%Q;
                       a20 := 0%Q; a21 := 0%Q; a22 := 1%Q |};
     getPosition := {| vx := 1%Q; vy := 2%Q; vz := 3%Q |} |}.

Definition example_event : TimerEvent :=
  {| last_expected := {| sec := 10; nsec := 0 |};
     last_real := {| sec := 10; nsec := 1200 |};
     current_expected := {| sec := 10; nsec := 10000000 |};
     current_real := {| sec := 10; nsec := 10000900 |} |}.

Definition example_now : Time := {| sec := 10; nsec := 10002000 |}.

(** The constructed node with a parameter more, one the interface does not
    ask for. *)
Definition example_node_more : Ros (Ext := example_ext) :=
  {| param_server :=
       <["/orb_slam_2_ros_node/visualization" := XBoolean false]>
         example_params;
     param_requests := []; advertised := []; timers := []; published := [];
     broadcast := []; clock := {| sec := 0; nsec := 0 |} |}.

(** [example_T_cv] with another last row. *)
Definition example_T_cv_bottom : Mat Q :=
  {| rows := 4; cols := 4;
     data := [0; -1; 0; 1;
              1;  0; 0; 2;
              0;  0; 1; 3;
              5;  6; 7; 8]%Q;
     mat_ok := eq_refl |}.

(** A node without any parameter. *)
Definition example_node_bare : Ros (Ext := example_ext) :=
  {| param_server := ∅; param_requests := []; advertised := []; timers := [];
     published := []; broadcast := []; clock := {| sec := 0; nsec := 0 |} |}.

(** The constructed object on a node where the settings path is missing,
    and on one without parameters. *)
Definition example_without_settings : State (Ext := example_ext) :=
  {| this := example_this; ros := example_node_without_settings |}.

Definition example_bare : State (Ext := example_ext) :=
  {| this := example_this; ros := example_node_bare |}.

(** The constructed node after the parameters have been read once more. *)
Definition example_reread : State (Ext := example_ext) :=
  {| this := example_this;
     ros := log_param_requests (Ext := example_ext)
              (map (resolveName example_nh_private)
                 (required_params ++ optional_params))
              (ros example_constructed) |}.

(** * Properties *)

Section Properties.

Context `{Ext : External}.

Local Open Scope method_scope.

(** ** Topics and timer *)

Lemma advertiseTopics_run (s : State) :
  advertiseTopics s =
    Done (tt, {| this := with_topics (this s);
                 ros := node_with_topics (this s) (ros s) |}).
Proof. destruct s as [o n]. reflexivity. Qed.

(** C4: [advertiseTopics] returns normally; it adds to the node exactly
    three advertisements, of a TransformStamped publisher on
    'transform_cam', a PoseStamped publisher on 'pose_cam' and a
    PointCloud2 publisher on 'keypoints_cloud', all on the private handle
    and with queue size 1, and exactly one timer, of period 1/100 s and
    bound to [publishCurrentPoseAsTF]; it stores the four handles in
    [this], and publishes and broadcasts nothing. *)
Theorem advertiseTopics_three_topics_one_timer (s : State) :
  exists s',
    advertiseTopics s = Done (tt, s') /\
    advertised (ros s') =
      (advertised (ros s) ++
       [transform_cam_adv (this s); pose_cam_adv (this s);
        keypoints_cloud_adv (this s)])%list /\
    timers (ros s') = (timers (ros s) ++ [tf_timer_request (this s)])%list /\
    Forall (fun adv => adv_queue_size adv = 1)
      [transform_cam_adv (this s); pose_cam_adv (this s);
       keypoints_cloud_adv (this s)] /\
    (timer_period (tf_timer_request (this s)) == 1 / 100)%Q /\
    run_callback (timer_callback (tf_timer_request (this s))) =
      publishCurrentPoseAsTF /\
    T_pub_ (this s') = Some (transform_cam_adv (this s)) /\
    pose_pub_ (this s') = Some (pose_cam_adv (this s)) /\
    cloud_pub_ (this s') = Some (keypoints_cloud_adv (this s)) /\
    tf_timer_ (this s') = Some (tf_timer_request (this s)) /\
    published (ros s') = published (ros s) /\
    broadcast (ros s') = broadcast (ros s) /\
    param_requests (ros s') = param_requests (ros s).
Proof.
  destruct s as [o n]. eexists. split; [reflexivity|]. simpl.
  repeat split; try reflexivity.
  - rewrite <- app_assoc. simpl. rewrite <- app_assoc. reflexivity.
  - repeat constructor.
Qed.

(** ** Publishing the pose *)

(** C5: with the publisher [T_pub_] that [advertiseTopics] stored, for
    every transformation [T] and header, [publishCurrentPose] hands
    exactly one message to that publisher and changes nothing else: a
    TransformStamped whose header is the given header, whose
    child_frame_id is the configured [child_frame_id_] and whose
    transform is [transformKindrToMsg T]. *)
Theorem publishCurrentPose_one_message (T : Transformation) (header : Header)
    (s : State) (adv : Advertisement) :
  T_pub_ (this s) = Some adv ->
  exists m,
    publishCurrentPose T header s =
      Done (tt, on_ros (log_published adv (TransformStampedM m)) s) /\
    published (ros (on_ros (log_published adv (TransformStampedM m)) s)) =
      (published (ros s) ++ [(adv, TransformStampedM m)])%list /\
    ts_header m = header /\
    child_frame_id m = child_frame_id_ (this s) /\
    transform m = transformKindrToMsg T.
Proof.
  intros Hpub.
  exists {| ts_header := header; child_frame_id := child_frame_id_ (this s);
            transform := transformKindrToMsg T |}.
  unfold publishCurrentPose, bind, gets, publish. rewrite Hpub.
  repeat split.
Qed.

(** ** The timer callback *)

Lemma fire_tf_timer_run (s : State) (now : Time) (event : TimerEvent)
    (req : TimerRequest) :
  tf_timer_ (this s) = Some req ->
  fire_tf_timer now event s =
    Done (tt, on_ros (log_broadcast (current_pose_stamped (this s) now))
                (on_ros (set_clock now) s)).
Proof.
  intros Htimer. unfold fire_tf_timer, bind, modify, gets. simpl.
  rewrite Htimer. destruct req as [h p []]. reflexivity.
Qed.

Lemma fire_tf_timer_all_run (firings : list (Time * TimerEvent)) :
  forall (s : State) (req : TimerRequest),
  tf_timer_ (this s) = Some req ->
  exists s',
    fire_tf_timer_all firings s = Done (tt, s') /\
    this s' = this s /\
    broadcast (ros s') =
      (broadcast (ros s) ++
       map (fun f => current_pose_stamped (this s) (fst f)) firings)%list /\
    published (ros s') = published (ros s).
Proof.
  induction firings as [|[now event] rest IH]; intros s req Htimer.
  - exists s. simpl. rewrite app_nil_r. repeat split.
  - cbn [fire_tf_timer_all]. unfold bind at 1.
    rewrite (fire_tf_timer_run s now event req Htimer).
    destruct (IH (on_ros (log_broadcast (current_pose_stamped (this s) now))
                    (on_ros (set_clock now) s)) req Htimer)
      as (s' & Hrun & Hthis & Hb & Hp).
    exists s'. split; [exact Hrun|]. split; [exact Hthis|].
    split; [|exact Hp]. rewrite Hb. simpl. rewrite <- app_assoc. reflexivity.
Qed.

(** C6: [publishCurrentPoseAsTF] broadcasts exactly one stamped transform,
    built from the stored pose [T_W_C_], from [frame_id_] as parent frame
    and [child_frame_id_] as child frame, stamped with the clock of the
    node, and leaves [this] and the rest of the node as they are. Every
    firing of the timer that [tf_timer_] holds runs it once, at the time
    of the firing; a run of firings broadcasts one transform per firing,
    in order. *)
Theorem publishCurrentPoseAsTF_on_every_firing (s : State) (now : Time)
    (event : TimerEvent) (req : TimerRequest)
    (firings : list (Time * TimerEvent)) :
  tf_timer_ (this s) = Some req ->
  publishCurrentPoseAsTF event s =
    Done (tt, on_ros (log_broadcast
                        (current_pose_stamped (this s) (clock (ros s)))) s) /\
  (exists s',
    fire_tf_timer now event s = Done (tt, s') /\
    this s' = this s /\
    broadcast (ros s') =
      (broadcast (ros s) ++ [current_pose_stamped (this s) now])%list /\
    clock (ros s') = now /\
    published (ros s') = published (ros s) /\
    advertised (ros s') = advertised (ros s) /\
    timers (ros s') = timers (ros s) /\
    param_server (ros s') = param_server (ros s) /\
    param_requests (ros s') = param_requests (ros s)) /\
  (exists s',
    fire_tf_timer_all firings s = Done (tt, s') /\
    this s' = this s /\
    broadcast (ros s') =
      (broadcast (ros s) ++
       map (fun f => current_pose_stamped (this s) (fst f)) firings)%list).
Proof.
  intros Htimer. split; [reflexivity|]. split.
  - rewrite (fire_tf_timer_run s now event req Htimer).
    eexists. split; [reflexivity|]. simpl. repeat split.
  - destruct (fire_tf_timer_all_run firings s req Htimer)
      as (s' & Hrun & Hthis & Hb & _).
    exists s'. repeat split; assumption.
Qed.

(** ** The conversion of a pose *)

(** A 4x4 [cv::Mat] holds sixteen elements, so [cv2eigen] reads all of its
    coefficients; the last column is at the indices 3, 7, 11 and 15. *)
Lemma cv2eigen_4x4 {A : Type} (m : Mat A) :
  rows m = 4 -> cols m = 4 ->
  exists M, cv2eigen m = Some M /\
    at_ m 3 = Some (e03 M) /\ at_ m 7 = Some (e13 M) /\
    at_ m 11 = Some (e23 M) /\ at_ m 15 = Some (e33 M).
Proof.
  destruct m as [rs cs d ok]. unfold cv2eigen, at_. simpl. intros -> ->.
  unfold Mat_sizes_ok in ok. simpl in ok. apply Z.eqb_eq in ok.
  assert (Hlen : length d = 16%nat) by lia. clear ok.
  do 17 (destruct d as [|? d]; simpl in Hlen; try discriminate Hlen).
  eexists. split; [reflexivity|]. simpl. repeat split.
Qed.

(** On a 4x4 [cv::Mat], [cv2eigen] returns the matrix whose coefficients,
    row by row, are the sixteen elements of the buffer. *)
Lemma cv2eigen_4x4_data {A : Type} (m : Mat A) :
  rows m = 4 -> cols m = 4 ->
  exists M, cv2eigen m = Some M /\
    data m = [e00 M; e01 M; e02 M; e03 M; e10 M; e11 M; e12 M; e13 M;
              e20 M; e21 M; e22 M; e23 M; e30 M; e31 M; e32 M; e33 M].
Proof.
  destruct m as [rs cs d ok]. unfold cv2eigen. simpl. intros -> ->.
  unfold Mat_sizes_ok in ok. simpl in ok. apply Z.eqb_eq in ok.
  assert (Hlen : length d = 16%nat) by lia. clear ok.
  do 17 (destruct d as [|? d]; simpl in Hlen; try discriminate Hlen).
  eexists. split; reflexivity.
Qed.

(** C10: [convertOrbSlamPoseToKindr] stops in a fatal check exactly when
    the output pointer is null or the matrix does not have 4 columns and
    4 rows, whatever the matrix holds; the null pointer is reported
    first, then the columns, then the rows. With a pointer that is not
    null and a 4x4 matrix no check fires: the method returns normally and
    leaves the state alone, and what it stores through the pointer is the
    conversion of the matrix, whatever the pointer pointed to: the
    transformation made of the quaternion of the rotation matrix rebuilt
    from the angle-axis form of the upper-left 3x3 block, and of the
    first three elements of the last column, all cast to double. *)
Theorem convertOrbSlamPoseToKindr_checks {S : Type} (T_cv : Mat F32)
    (T_kindr : option Transformation) (s : S) :
  is_fatal (convertOrbSlamPoseToKindr T_cv T_kindr s) =
    negb (bool_decide (is_Some T_kindr)
          && Z.eqb (cols T_cv) 4 && Z.eqb (rows T_cv) 4) /\
  (T_kindr = None ->
   exists c, convertOrbSlamPoseToKindr T_cv T_kindr s = Fatal c /\
             check_expr c = "T_kindr") /\
  (is_Some T_kindr -> cols T_cv <> 4 ->
   exists c, convertOrbSlamPoseToKindr T_cv T_kindr s = Fatal c /\
             check_expr c = "T_cv.cols == 4") /\
  (is_Some T_kindr -> cols T_cv = 4 -> rows T_cv <> 4 ->
   exists c, convertOrbSlamPoseToKindr T_cv T_kindr s = Fatal c /\
             check_expr c = "T_cv.rows == 4") /\
  (is_Some T_kindr -> cols T_cv = 4 -> rows T_cv = 4 ->
   exists T, convertOrbSlamPoseToKindr T_cv T_kindr s = Done (T, s)) /\
  (is_Some T_kindr -> cols T_cv = 4 -> rows T_cv = 4 ->
   exists M,
     data T_cv =
       [e00 M; e01 M; e02 M; e03 M; e10 M; e11 M; e12 M; e13 M;
        e20 M; e21 M; e22 M; e23 M; e30 M; e31 M; e32 M; e33 M] /\
     convertOrbSlamPoseToKindr T_cv T_kindr s =
       Done ({| getRotation :=
                  Quaternion_of_matrix
                    (toRotationMatrix
                       (AngleAxisd_of_matrix
                          {| a00 := cast (e00 M); a01 := cast (e01 M);
                             a02 := cast (e02 M);
                             a10 := cast (e10 M); a11 := cast (e11 M);
                             a12 := cast (e12 M);
                             a20 := cast (e20 M); a21 := cast (e21 M);
                             a22 := cast (e22 M) |}));
                getPosition :=
                  {| vx := cast (e03 M); vy := cast (e13 M);
                     vz := cast (e23 M) |} |}, s)).
Proof.
  unfold convertOrbSlamPoseToKindr, CHECK_NOTNULL, CHECK_EQ, CHECK, bind,
    abort, ret.
  destruct T_kindr as [old|]; simpl.
  2: { repeat split; try (intros [? ?]; discriminate); try discriminate.
       intros _. eexists. split; reflexivity. }
  destruct (Z.eqb_spec (cols T_cv) 4) as [Hc|Hc]; simpl.
  2: { repeat split; try discriminate; try contradiction.
       intros _ _. eexists. split; reflexivity. }
  destruct (Z.eqb_spec (rows T_cv) 4) as [Hr|Hr]; simpl.
  2: { repeat split; try discriminate; try contradiction.
       intros _ _ _. eexists. split; reflexivity. }
  destruct (cv2eigen_4x4_data T_cv Hr Hc) as (M & HM & Hdata).
  rewrite HM. simpl.
  split; [reflexivity|]. split; [discriminate|].
  split; [intros _ Hne; contradiction|].
  split; [intros _ _ Hne; contradiction|].
  split.
  - intros _ _ _. eexists. reflexivity.
  - intros _ _ _. exists M. split; [exact Hdata|reflexivity].
Qed.

(** C9: for every 4x4 matrix (and an output pointer that is not null) the
    translation of the transformation [convertOrbSlamPoseToKindr] stores
    is the top-right 3x1 column of the input, that is the elements at row
    0, 1 and 2 of column 3, each cast from float to double and otherwise
    unchanged. The angle-axis conversions of [External] are arbitrary
    here: the translation does not depend on them. *)
Theorem convertOrbSlamPoseToKindr_translation {S : Type} (T_cv : Mat F32)
    (old : Transformation) (s : S) :
  cols T_cv = 4 -> rows T_cv = 4 ->
  exists t0 t1 t2 T,
    at_ T_cv (0 * 4 + 3) = Some t0 /\
    at_ T_cv (1 * 4 + 3) = Some t1 /\
    at_ T_cv (2 * 4 + 3) = Some t2 /\
    convertOrbSlamPoseToKindr T_cv (Some old) s = Done (T, s) /\
    getPosition T = {| vx := cast t0; vy := cast t1; vz := cast t2 |}.
Proof.
  intros Hc Hr.
  destruct (cv2eigen_4x4 T_cv Hr Hc) as (M & HM & H0 & H1 & H2 & _).
  exists (e03 M), (e13 M), (e23 M). eexists.
  repeat (split; [assumption|]).
  unfold convertOrbSlamPoseToKindr, CHECK_NOTNULL, CHECK_EQ, CHECK, bind,
    abort, ret, defined.
  rewrite Hc, Hr, HM. simpl. split; reflexivity.
Qed.

(** The rotation it stores is the quaternion of the matrix rebuilt from
    the angle-axis form of the upper-left 3x3 block. *)
Lemma convertOrbSlamPoseToKindr_rotation {S : Type} (T_cv : Mat F32)
    (old : Transformation) (s : S) :
  cols T_cv = 4 -> rows T_cv = 4 ->
  exists M T,
    cv2eigen T_cv = Some M /\
    convertOrbSlamPoseToKindr T_cv (Some old) s = Done (T, s) /\
    getRotation T =
      Quaternion_of_matrix
        (toRotationMatrix
           (AngleAxisd_of_matrix (block33 (Matrix4_cast cast M)))).
Proof.
  intros Hc Hr.
  destruct (cv2eigen_4x4 T_cv Hr Hc) as (M & HM & _).
  exists M. eexists. split; [exact HM|].
  unfold convertOrbSlamPoseToKindr, CHECK_NOTNULL, CHECK_EQ, CHECK, bind,
    abort, ret, defined.
  rewrite Hc, Hr, HM. simpl. split; reflexivity.
Qed.

(** ** The point cloud *)

Lemma at_in_range {A : Type} (m : Mat A) (i : nat) :
  Z.of_nat i < total m -> exists v, at_ m i = Some v.
Proof.
  destruct m as [rs cs d ok]. unfold at_, total. simpl. intros Hi.
  unfold Mat_sizes_ok in ok.
  apply andb_prop in ok. destruct ok as [_ ok]. apply Z.eqb_eq in ok.
  destruct (nth_error d i) as [v|] eqn:E; [eauto|].
  apply nth_error_None in E. lia.
Qed.

Lemma cloud_loop_body_skip (mp : option (MapPoint F32))
    (locals : PointXYZRGB F32 * PointCloud F32) :
  in_cloud mp = false -> cloud_loop_body mp locals = Some locals.
Proof.
  destruct locals as [pt c]. destruct mp as [p|]; simpl; [|reflexivity].
  intros H. apply negb_false_iff in H. rewrite H. reflexivity.
Qed.

Lemma cloud_loop_body_push (mp : option (MapPoint F32))
    (pt : PointXYZRGB F32) (c : PointCloud F32) :
  in_cloud mp = true -> has_coordinates mp ->
  exists pt', cloud_loop_body mp (pt, c) = Some (pt', push_back c pt') /\
              point_of mp pt'.
Proof.
  destruct mp as [p|]; simpl; [|discriminate].
  intros H Hc. apply negb_true_iff in H. specialize (Hc p eq_refl H).
  rewrite H.
  destruct (at_in_range (GetWorldPos p) 0) as [w0 H0]; [simpl; lia|].
  destruct (at_in_range (GetWorldPos p) 1) as [w1 H1]; [simpl; lia|].
  destruct (at_in_range (GetWorldPos p) 2) as [w2 H2]; [simpl; lia|].
  rewrite H0, H1, H2. eexists. split; [reflexivity|].
  exists p. simpl. repeat split; assumption.
Qed.

Lemma cloud_loop_spec (mapPoints : list (option (MapPoint F32))) :
  Forall has_coordinates mapPoints ->
  forall (pt : PointXYZRGB F32) (c : PointCloud F32),
  exists pt' pts,
    cloud_loop mapPoints (pt, c) =
      Some (pt', {| points := points c ++ pts; width := width c;
                    height := height c; is_dense := is_dense c |}) /\
    Forall2 point_of (List.filter in_cloud mapPoints) pts.
Proof.
  induction 1 as [|mp rest Hmp Hrest IH]; intros pt c.
  - exists pt, []. simpl. rewrite app_nil_r. destruct c. split; [reflexivity|constructor].
  - cbn [cloud_loop List.filter]. destruct (in_cloud mp) eqn:E.
    + destruct (cloud_loop_body_push mp pt c E Hmp) as (pt1 & -> & Hpt1).
      destruct (IH pt1 (push_back c pt1)) as (pt' & pts & -> & Hpts).
      exists pt', (pt1 :: pts). simpl. rewrite <- app_assoc. simpl.
      split; [reflexivity|]. constructor; assumption.
    + rewrite (cloud_loop_body_skip mp (pt, c) E). apply IH.
Qed.

Lemma publishPointCloud_done (mapPoints : list (option (MapPoint F32)))
    (header : Header) (s : State) (adv : Advertisement) :
  cloud_pub_ (this s) = Some adv ->
  Forall has_coordinates mapPoints ->
  exists cloud,
    Forall2 point_of (List.filter in_cloud mapPoints) (points cloud) /\
    publishPointCloud mapPoints header s =
      Done (tt, on_ros (log_published adv
                          (PointCloud2M (cloud_message cloud header))) s).
Proof.
  intros Hpub Hall.
  destruct (cloud_loop_spec mapPoints Hall PointXYZRGB_new PointCloud_new)
    as (pt' & pts & Hloop & Hpts).
  simpl in Hloop.
  exists {| points := pts; width := 0; height := 0; is_dense := true |}.
  split; [exact Hpts|].
  unfold publishPointCloud, bind, defined, gets, publish, ret.
  rewrite Hloop. simpl. rewrite Hpub. reflexivity.
Qed.

(** C1: for every list of map-point pointers in which each world position
    that is not empty has its three coordinates, [publishPointCloud]
    builds a cloud whose points are, in the order of the list, one point
    for each entry that is not null and whose world position is not empty
    and none for the others; the x, y, z of each point are the first
    three floats of that world position and its r, g, b are 255. That
    cloud, converted by [toROSMsg], is the one message it publishes. *)
Theorem publishPointCloud_points (mapPoints : list (option (MapPoint F32)))
    (header : Header) (s : State) (adv : Advertisement) :
  cloud_pub_ (this s) = Some adv ->
  Forall has_coordinates mapPoints ->
  exists cloud,
    Forall2 point_of (List.filter in_cloud mapPoints) (points cloud) /\
    length (points cloud) = length (List.filter in_cloud mapPoints) /\
    Forall (fun pt => r pt = 255 /\ g pt = 255 /\ b pt = 255) (points cloud) /\
    publishPointCloud mapPoints header s =
      Done (tt, on_ros (log_published adv
                          (PointCloud2M (cloud_message cloud header))) s).
Proof.
  intros Hpub Hall.
  destruct (publishPointCloud_done mapPoints header s adv Hpub Hall)
    as (cloud & Hpts & Hrun).
  exists cloud. repeat split; try assumption.
  - symmetry. eapply Forall2_length. exact Hpts.
  - clear Hrun. induction Hpts as [|mp pt l pts Hpt _ IH]; constructor.
    + destruct Hpt as (p & _ & _ & _ & _ & Hr & Hg & Hb). auto.
    + exact IH.
Qed.

(** ** The frame of the published messages *)

(** C8: the PoseStamped message [publishCurrentPoseAsPose] publishes has
    the frame_id "world" and the time stamp (and sequence number) of the
    given header; the PointCloud2 message [publishPointCloud] publishes
    has the frame_id "world" too. This holds for every given header and
    every configured [frame_id_], and [this], with its [frame_id_], is
    left as it was. *)
Theorem published_frame_id_world (T : Transformation) (header : Header)
    (mapPoints : list (option (MapPoint F32))) (s : State)
    (adv_pose adv_cloud : Advertisement) :
  pose_pub_ (this s) = Some adv_pose ->
  cloud_pub_ (this s) = Some adv_cloud ->
  Forall has_coordinates mapPoints ->
  (exists m s',
     publishCurrentPoseAsPose T header s = Done (tt, s') /\
     s' = on_ros (log_published adv_pose (PoseStampedM m)) s /\
     frame_id (ps_header m) = "world" /\
     stamp (ps_header m) = stamp header /\
     seq (ps_header m) = seq header /\
     pose m = poseKindrToMsg T /\
     this s' = this s) /\
  (exists m s',
     publishPointCloud mapPoints header s = Done (tt, s') /\
     s' = on_ros (log_published adv_cloud (PointCloud2M m)) s /\
     frame_id (pc_header m) = "world" /\
     this s' = this s).
Proof.
  intros Hpose Hcloud Hall. split.
  - exists {| ps_header := set_frame_id header "world";
              pose := poseKindrToMsg T |}.
    eexists. unfold publishCurrentPoseAsPose, bind, gets, publish.
    rewrite Hpose. simpl. repeat split.
  - destruct (publishPointCloud_done mapPoints header s adv_cloud Hcloud Hall)
      as (cloud & _ & Hrun).
    exists (cloud_message cloud header). eexists.
    split; [exact Hrun|]. repeat split.
Qed.

(** ** Parameters *)

Lemma getParam_string_run (nh : NodeHandle) (key : string)
    (assign : string -> OrbSlam2Interface -> OrbSlam2Interface) (s : State) :
  getParam_string nh key assign s =
    Done (bool_decide (is_Some (string_param (ros s) (resolveName nh key))),
          on_this (assign_if (string_param (ros s) (resolveName nh key)) assign)
            (on_ros (log_param_request (resolveName nh key)) s)).
Proof.
  unfold getParam_string, getParamValue, string_param, bind, modify, gets.
  simpl. destruct (param_server (ros s) !! resolveName nh key) as [[]|];
    reflexivity.
Qed.

Lemma getParam_bool_run (nh : NodeHandle) (key : string)
    (assign : bool -> OrbSlam2Interface -> OrbSlam2Interface) (s : State) :
  getParam_bool nh key assign s =
    Done (bool_decide (is_Some (bool_param (ros s) (resolveName nh key))),
          on_this (assign_if (bool_param (ros s) (resolveName nh key)) assign)
            (on_ros (log_param_request (resolveName nh key)) s)).
Proof.
  unfold getParam_bool, getParamValue, bool_param, bind, modify, gets.
  simpl. destruct (param_server (ros s) !! resolveName nh key) as [[]|];
    reflexivity.
Qed.

Lemma string_param_logged (x : string) (n : Ros) (name : string) :
  string_param (log_param_request x n) name = string_param n name.
Proof. reflexivity. Qed.

Lemma bool_param_logged (x : string) (n : Ros) (name : string) :
  bool_param (log_param_request x n) name = bool_param n name.
Proof. reflexivity. Qed.

Lemma getParametersFromRos_run (s : State) :
  let name := resolveName (nh_private_ (this s)) in
  getParametersFromRos s =
    match string_param (ros s) (name "vocabulary_file_path") with
    | None =>
        Fatal {| check_expr :=
                   "nh_private_.getParam('vocabulary_file_path', vocabulary_file_path_)";
                 check_text :=
                   "Please provide the vocabulary_file_path as a ros param." |}
    | Some voc =>
        match string_param (ros s) (name "settings_file_path") with
        | None =>
            Fatal {| check_expr :=
                       "nh_private_.getParam('settings_file_path', settings_file_path_)";
                     check_text :=
                       "Please provide the settings_file_path as a ros param." |}
        | Some settings =>
            Done (tt, {| this := with_parameters (this s) (ros s) voc settings;
                         ros := log_param_requests
                                  (map name (required_params ++ optional_params))
                                  (ros s) |})
        end
    end.
Proof.
  destruct s as [o n]. cbn zeta.
  unfold getParametersFromRos.
  unfold bind at 1. unfold gets at 1. cbn [this nh_private_].
  unfold bind at 1. rewrite getParam_string_run.
  cbn [ros this on_this on_ros].
  destruct (string_param n (resolveName (nh_private_ o) "vocabulary_file_path"))
    as [voc|]; [|reflexivity].
  change (bool_decide (is_Some (Some voc))) with true.
  unfold bind at 1. unfold CHECK at 1. unfold ret at 1.
  unfold bind at 1. rewrite getParam_string_run.
  cbn [ros this on_this on_ros]. rewrite string_param_logged.
  destruct (string_param n (resolveName (nh_private_ o) "settings_file_path"))
    as [settings|]; [|reflexivity].
  change (bool_decide (is_Some (Some settings))) with true.
  unfold bind at 1. unfold CHECK at 1. unfold ret at 1.
  unfold bind at 1. rewrite getParam_bool_run.
  unfold bind at 1. rewrite getParam_string_run.
  unfold bind at 1. rewrite getParam_string_run.
  reflexivity.
Qed.

Lemma log_param_requests_requests (names : list string) (n : Ros) :
  param_requests (log_param_requests names n) =
    (param_requests n ++ names)%list.
Proof.
  unfold log_param_requests. revert n.
  induction names as [|name names IH]; intros n; simpl.
  - symmetry. apply app_nil_r.
  - rewrite IH. simpl. rewrite <- app_assoc. reflexivity.
Qed.

Lemma absent_string (nh_private : NodeHandle) (n : Ros) (key : string) :
  absent nh_private n key -> string_param n (resolveName nh_private key) = None.
Proof. unfold absent, string_param. intros ->. reflexivity. Qed.

Lemma absent_bool (nh_private : NodeHandle) (n : Ros) (key : string) :
  absent nh_private n key -> bool_param n (resolveName nh_private key) = None.
Proof. unfold absent, bool_param. intros ->. reflexivity. Qed.

(** What [getParametersFromRos] does to the members, read off
    [with_parameters]. *)
Lemma with_parameters_members (o : OrbSlam2Interface) (n : Ros)
    (voc settings : string) :
  let o' := with_parameters o n voc settings in
  vocabulary_file_path_ o' = voc /\
  settings_file_path_ o' = settings /\
  (absent (nh_private_ o) n "verbose" -> verbose_ o' = verbose_ o) /\
  (absent (nh_private_ o) n "frame_id" -> frame_id_ o' = frame_id_ o) /\
  (absent (nh_private_ o) n "child_frame_id" ->
   child_frame_id_ o' = child_frame_id_ o).
Proof.
  cbn zeta. unfold with_parameters.
  destruct (string_param n (resolveName (nh_private_ o) "child_frame_id")) eqn:Ec,
    (string_param n (resolveName (nh_private_ o) "frame_id")) eqn:Ef,
    (bool_param n (resolveName (nh_private_ o) "verbose")) eqn:Ev;
    simpl; repeat split; try reflexivity; intros Habs;
    try (apply absent_string in Habs; congruence);
    try (apply absent_bool in Habs; congruence).
Qed.

(** The optional members after [with_parameters]: the value retrieved for
    the parameter, or the one the member had. *)
Lemma with_parameters_optional (o : OrbSlam2Interface) (n : Ros)
    (voc settings : string) :
  let o' := with_parameters o n voc settings in
  verbose_ o' =
    default (verbose_ o) (bool_param n (resolveName (nh_private_ o) "verbose")) /\
  frame_id_ o' =
    default (frame_id_ o)
      (string_param n (resolveName (nh_private_ o) "frame_id")) /\
  child_frame_id_ o' =
    default (child_frame_id_ o)
      (string_param n (resolveName (nh_private_ o) "child_frame_id")).
Proof.
  cbn zeta. unfold with_parameters.
  destruct (string_param n (resolveName (nh_private_ o) "child_frame_id")),
    (string_param n (resolveName (nh_private_ o) "frame_id")),
    (bool_param n (resolveName (nh_private_ o) "verbose"));
    repeat split.
Qed.

(** C3: [getParametersFromRos] asks the parameter server for exactly five
    names, the two required ones and then the three optional ones. It
    stops in a fatal check exactly when one of the two required
    parameters cannot be retrieved; otherwise it returns, the two paths
    hold the retrieved values, the member of every optional parameter
    that is absent keeps its value, and in general the member of an
    optional parameter holds the value retrieved for it, or else the value
    it had. Run by the constructor, the value it had is the default the
    initialisers set: [kDefaultVerbose], [kDefaultFrameId],
    [kDefaultChildFrameId]. *)
Theorem getParametersFromRos_required_and_optional (s : State)
    (nh nh_private : NodeHandle) (n : Ros) :
  (is_fatal (getParametersFromRos s) =
     negb (required_retrieved (nh_private_ (this s)) (ros s)) /\
   (required_retrieved (nh_private_ (this s)) (ros s) = true ->
    exists s',
      getParametersFromRos s = Done (tt, s') /\
      param_requests (ros s') =
        (param_requests (ros s) ++
         map (resolveName (nh_private_ (this s)))
           (required_params ++ optional_params))%list /\
      length required_params = 2%nat /\ length optional_params = 3%nat /\
      string_param (ros s)
        (resolveName (nh_private_ (this s)) "vocabulary_file_path") =
        Some (vocabulary_file_path_ (this s')) /\
      string_param (ros s)
        (resolveName (nh_private_ (this s)) "settings_file_path") =
        Some (settings_file_path_ (this s')) /\
      (absent (nh_private_ (this s)) (ros s) "verbose" ->
       verbose_ (this s') = verbose_ (this s)) /\
      (absent (nh_private_ (this s)) (ros s) "frame_id" ->
       frame_id_ (this s') = frame_id_ (this s)) /\
      (absent (nh_private_ (this s)) (ros s) "child_frame_id" ->
       child_frame_id_ (this s') = child_frame_id_ (this s)) /\
      verbose_ (this s') =
        default (verbose_ (this s))
          (bool_param (ros s)
             (resolveName (nh_private_ (this s)) "verbose")) /\
      frame_id_ (this s') =
        default (frame_id_ (this s))
          (string_param (ros s)
             (resolveName (nh_private_ (this s)) "frame_id")) /\
      child_frame_id_ (this s') =
        default (child_frame_id_ (this s))
          (string_param (ros s)
             (resolveName (nh_private_ (this s)) "child_frame_id")))) /\
  (is_fatal (OrbSlam2Interface_new nh nh_private n) =
     negb (required_retrieved nh_private n) /\
   (required_retrieved nh_private n = true ->
    exists o n',
      OrbSlam2Interface_new nh nh_private n = Done (o, n') /\
      (absent nh_private n "verbose" -> verbose_ o = kDefaultVerbose) /\
      (absent nh_private n "frame_id" -> frame_id_ o = kDefaultFrameId) /\
      (absent nh_private n "child_frame_id" ->
       child_frame_id_ o = kDefaultChildFrameId) /\
      string_param n (resolveName nh_private "vocabulary_file_path") =
        Some (vocabulary_file_path_ o) /\
      string_param n (resolveName nh_private "settings_file_path") =
        Some (settings_file_path_ o) /\
      verbose_ o =
        default kDefaultVerbose
          (bool_param n (resolveName nh_private "verbose")) /\
      frame_id_ o =
        default kDefaultFrameId
          (string_param n (resolveName nh_private "frame_id")) /\
      child_frame_id_ o =
        default kDefaultChildFrameId
          (string_param n (resolveName nh_private "child_frame_id")))).
Proof.
  split.
  - rewrite getParametersFromRos_run. cbn zeta. unfold required_retrieved.
    destruct (string_param (ros s)
                (resolveName (nh_private_ (this s)) "vocabulary_file_path"))
      as [voc|]; [|split; [reflexivity|discriminate]].
    destruct (string_param (ros s)
                (resolveName (nh_private_ (this s)) "settings_file_path"))
      as [settings|]; [|split; [reflexivity|discriminate]].
    split; [reflexivity|]. intros _. eexists. split; [reflexivity|].
    cbn [this ros]. rewrite log_param_requests_requests.
    destruct (with_parameters_members (this s) (ros s) voc settings)
      as (Hv & Hs & Hverbose & Hframe & Hchild).
    destruct (with_parameters_optional (this s) (ros s) voc settings)
      as (Gverbose & Gframe & Gchild).
    rewrite Hv, Hs. repeat split; assumption.
  - unfold OrbSlam2Interface_new, bind. rewrite advertiseTopics_run.
    rewrite getParametersFromRos_run. cbn zeta. unfold required_retrieved.
    cbn [this ros].
    change (string_param (node_with_topics ?o n) ?k) with (string_param n k).
    change (nh_private_ (with_topics ?o)) with (nh_private_ o).
    cbn [nh_private_].
    destruct (string_param n (resolveName nh_private "vocabulary_file_path"))
      as [voc|]; [|split; [reflexivity|discriminate]].
    destruct (string_param n (resolveName nh_private "settings_file_path"))
      as [settings|]; [|split; [reflexivity|discriminate]].
    split; [reflexivity|]. intros _. eexists. eexists.
    split; [reflexivity|]. cbn [this ros].
    match goal with
    | |- context [with_parameters ?o ?m voc settings] =>
        destruct (with_parameters_members o m voc settings)
          as (Hv & Hs & Hverbose & Hframe & Hchild);
        destruct (with_parameters_optional o m voc settings)
          as (Gverbose & Gframe & Gchild)
    end.
    split; [intros Habs; rewrite Hverbose; [reflexivity|exact Habs]|].
    split; [intros Habs; rewrite Hframe; [reflexivity|exact Habs]|].
    split; [intros Habs; rewrite Hchild; [reflexivity|exact Habs]|].
    split; [rewrite Hv; reflexivity|].
    split; [rewrite Hs; reflexivity|].
    split; [exact Gverbose|]. split; [exact Gframe|exact Gchild].
Qed.

(** The object the constructor returns holds the three publishers and the
    timer of [advertiseTopics]: they are valid from then on. *)
Lemma OrbSlam2Interface_new_handles (nh nh_private : NodeHandle) (n n' : Ros)
    (o : OrbSlam2Interface) :
  OrbSlam2Interface_new nh nh_private n = Done (o, n') ->
  nh_private_ o = nh_private /\ nh_ o = nh /\
  T_pub_ o = Some (transform_cam_adv o) /\
  pose_pub_ o = Some (pose_cam_adv o) /\
  cloud_pub_ o = Some (keypoints_cloud_adv o) /\
  tf_timer_ o = Some (tf_timer_request o).
Proof.
  unfold OrbSlam2Interface_new, bind. rewrite advertiseTopics_run.
  rewrite getParametersFromRos_run. cbn zeta. cbn [this ros].
  destruct (string_param _ _) as [voc|]; [|discriminate].
  destruct (string_param _ _) as [settings|]; [|discriminate].
  intros H. injection H as <- _. cbn [this].
  unfold with_parameters.
  destruct (string_param _ _), (string_param _ _), (bool_param _ _);
    repeat split.
Qed.

End Properties.

(** * The methods on the example node *)

Example OrbSlam2Interface_new_example :
  OrbSlam2Interface_new (Ext := example_ext) example_nh example_nh_private
    example_node =
  Done (this example_constructed, ros example_constructed).
Proof. vm_compute. reflexivity. Qed.

Example OrbSlam2Interface_new_without_settings :
  OrbSlam2Interface_new (Ext := example_ext) example_nh example_nh_private
    example_node_without_settings =
  Fatal {| check_expr :=
             "nh_private_.getParam('settings_file_path', settings_file_path_)";
           check_text :=
             "Please provide the settings_file_path as a ros param." |}.
Proof. vm_compute. reflexivity. Qed.

Example publishPointCloud_example :
  publishPointCloud (Ext := example_ext) example_mapPoints example_header
    example_constructed =
  Done (tt,
        on_ros (log_published (keypoints_cloud_adv example_this)
                  (PointCloud2M (Ext := example_ext)
                     {| pc_header := {| seq := 0;
                                        stamp := {| sec := 0; nsec := 0 |};
                                        frame_id := "world" |};
                        pc_body :=
                          [ {| x := 1%Q; y := 2%Q; z := 3%Q;
                               r := 255; g := 255; b := 255; a := 255 |};
                            {| x := (1 # 2)%Q; y := (-4)%Q; z := 6%Q;
                               r := 255; g := 255; b := 255; a := 255 |} ] |}))
          example_constructed).
Proof. vm_compute. reflexivity. Qed.

Example publishPointCloud_short_position :
  publishPointCloud (Ext := example_ext)
    [Some {| mWorldPos := example_shortPos |}] example_header
    example_constructed = Undefined.
Proof. vm_compute. reflexivity. Qed.

Example convertOrbSlamPoseToKindr_example :
  convertOrbSlamPoseToKindr (Ext := example_ext) example_T_cv
    (Some Transformation_new) tt = Done (example_pose, tt).
Proof. vm_compute. reflexivity. Qed.

Example convertOrbSlamPoseToKindr_three_rows :
  convertOrbSlamPoseToKindr (Ext := example_ext) example_T_3x4
    (Some Transformation_new) tt =
  Fatal {| check_expr := "T_cv.rows == 4"; check_text := EmptyString |}.
Proof. vm_compute. reflexivity. Qed.

Example convertOrbSlamPoseToKindr_null :
  convertOrbSlamPoseToKindr (Ext := example_ext) example_T_3x4 None tt =
  Fatal {| check_expr := "T_kindr"; check_text := "Must be non NULL" |}.
Proof. vm_compute. reflexivity. Qed.

Example fire_tf_timer_example :
  fire_tf_timer (Ext := example_ext) example_now example_event
    example_constructed =
  Done (tt,
        on_ros (log_broadcast (Ext := example_ext)
                  (current_pose_stamped example_this example_now))
          (on_ros (set_clock example_now) example_constructed)).
Proof. vm_compute. reflexivity. Qed.

(** * The theorems at the example node *)

Lemma example_has_coordinates :
  Forall (has_coordinates (Ext := example_ext)) example_mapPoints.
Proof.
  unfold example_mapPoints.
  repeat constructor; intros p Hp; inversion Hp; subst p; vm_compute;
    congruence.
Defined.

Lemma publishPointCloud_points_witness :
  cloud_pub_ (this example_constructed) =
    Some (keypoints_cloud_adv example_this) /\
  Forall (has_coordinates (Ext := example_ext)) example_mapPoints /\
  exists cloud,
    Forall2 (point_of (Ext := example_ext))
      (List.filter (in_cloud (Ext := example_ext)) example_mapPoints)
      (points cloud) /\
    length (points cloud) =
      length (List.filter (in_cloud (Ext := example_ext)) example_mapPoints) /\
    Forall (fun pt => r pt = 255 /\ g pt = 255 /\ b pt = 255) (points cloud) /\
    publishPointCloud (Ext := example_ext) example_mapPoints example_header
      example_constructed =
      Done (tt, on_ros (log_published (keypoints_cloud_adv example_this)
                          (PointCloud2M (cloud_message cloud example_header)))
                  example_constructed).
Proof.
  split; [reflexivity|]. split; [exact example_has_coordinates|].
  apply (publishPointCloud_points (Ext := example_ext) example_mapPoints
           example_header example_constructed
           (keypoints_cloud_adv example_this)).
  - reflexivity.
  - exact example_has_coordinates.
Defined.

Lemma getParametersFromRos_required_and_optional_witness :
  required_retrieved example_nh_private example_node = true /\
  absent example_nh_private example_node "verbose" /\
  absent example_nh_private example_node "child_frame_id" /\
  exists o n',
    OrbSlam2Interface_new (Ext := example_ext) example_nh example_nh_private
      example_node = Done (o, n') /\
    verbose_ o = true /\ child_frame_id_ o = "cam0" /\
    frame_id_ o = "map" /\
    vocabulary_file_path_ o = "ORBvoc.txt" /\
    settings_file_path_ o = "euroc.yaml".
Proof.
  split; [vm_compute; reflexivity|].
  split; [vm_compute; reflexivity|].
  split; [vm_compute; reflexivity|].
  destruct (getParametersFromRos_required_and_optional (Ext := example_ext)
              example_constructed example_nh example_nh_private example_node)
    as [_ [_ Hnew]].
  destruct Hnew
    as (o & n' & Hrun & Hverbose & _ & Hchild & Hvoc & Hset & _ & Hframe & _);
    [vm_compute; reflexivity|].
  exists o, n'. split; [exact Hrun|]. split; [|split; [|split; [|split]]].
  - apply Hverbose. vm_compute. reflexivity.
  - apply Hchild. vm_compute. reflexivity.
  - rewrite Hframe. vm_compute. reflexivity.
  - vm_compute in Hvoc. injection Hvoc as Hvoc. symmetry. exact Hvoc.
  - vm_compute in Hset. injection Hset as Hset. symmetry. exact Hset.
Defined.

Lemma publishCurrentPose_one_message_witness :
  T_pub_ (this example_constructed) = Some (transform_cam_adv example_this) /\
  exists m,
    publishCurrentPose (Ext := example_ext) example_pose example_header
      example_constructed =
      Done (tt, on_ros (log_published (transform_cam_adv example_this)
                          (TransformStampedM m)) example_constructed) /\
    ts_header m = example_header /\
    child_frame_id m = "cam0" /\
    transform m = example_pose.
Proof.
  split; [reflexivity|].
  destruct (publishCurrentPose_one_message (Ext := example_ext) example_pose
              example_header example_constructed
              (transform_cam_adv example_this))
    as (m & Hrun & _ & Hh & Hc & Ht); [reflexivity|].
  exists m. repeat split; assumption.
Defined.

Lemma publishCurrentPoseAsTF_on_every_firing_witness :
  tf_timer_ (this example_constructed) = Some (tf_timer_request example_this) /\
  exists s',
    fire_tf_timer (Ext := example_ext) example_now example_event
      example_constructed = Done (tt, s') /\
    this s' = this example_constructed /\
    broadcast (ros s') =
      [current_pose_stamped (this example_constructed) example_now].
Proof.
  split; [reflexivity|].
  destruct (publishCurrentPoseAsTF_on_every_firing (Ext := example_ext)
              example_constructed example_now example_event
              (tf_timer_request example_this) [])
    as (_ & (s' & Hrun & Hthis & Hb & _) & _); [reflexivity|].
  exists s'. repeat split; assumption.
Defined.

Lemma published_frame_id_world_witness :
  pose_pub_ (this example_constructed) = Some (pose_cam_adv example_this) /\
  cloud_pub_ (this example_constructed) =
    Some (keypoints_cloud_adv example_this) /\
  Forall (has_coordinates (Ext := example_ext)) example_mapPoints /\
  (exists m s',
     publishCurrentPoseAsPose (Ext := example_ext) example_pose example_header
       example_constructed = Done (tt, s') /\
     s' = on_ros (log_published (pose_cam_adv example_this) (PoseStampedM m))
            example_constructed /\
     frame_id (ps_header m) = "world" /\
     stamp (ps_header m) = stamp example_header) /\
  (exists m s',
     publishPointCloud (Ext := example_ext) example_mapPoints example_header
       example_constructed = Done (tt, s') /\
     s' = on_ros (log_published (keypoints_cloud_adv example_this)
                    (PointCloud2M m)) example_constructed /\
     frame_id (pc_header m) = "world").
Proof.
  split; [reflexivity|]. split; [reflexivity|].
  split; [exact example_has_coordinates|].
  destruct (published_frame_id_world (Ext := example_ext) example_pose
              example_header example_mapPoints example_constructed
              (pose_cam_adv example_this) (keypoints_cloud_adv example_this))
    as [(m & s' & Hrun & Hs & Hf & Hst & _) (m2 & s2 & Hrun2 & Hs2 & Hf2 & _)];
    [reflexivity|reflexivity|exact example_has_coordinates|].
  split.
  - exists m, s'. repeat split; assumption.
  - exists m2, s2. repeat split; assumption.
Defined.

Lemma convertOrbSlamPoseToKindr_translation_witness :
  cols example_T_cv = 4 /\ rows example_T_cv = 4 /\
  exists t0 t1 t2 T,
    at_ example_T_cv 3 = Some t0 /\
    at_ example_T_cv 7 = Some t1 /\
    at_ example_T_cv 11 = Some t2 /\
    convertOrbSlamPoseToKindr (Ext := example_ext) example_T_cv
      (Some Transformation_new) tt = Done (T, tt) /\
    getPosition T = {| vx := t0; vy := t1; vz := t2 |}.
Proof.
  split; [reflexivity|]. split; [reflexivity|].
  apply (convertOrbSlamPoseToKindr_translation (Ext := example_ext)
           example_T_cv Transformation_new tt); reflexivity.
Defined.

Lemma convertOrbSlamPoseToKindr_checks_witness :
  is_Some (Some (Transformation_new (External := example_ext))) /\
  cols example_T_cv = 4 /\ rows example_T_cv = 4 /\
  (exists T,
     convertOrbSlamPoseToKindr (Ext := example_ext) example_T_cv
       (Some Transformation_new) tt = Done (T, tt)) /\
  convertOrbSlamPoseToKindr (Ext := example_ext) example_T_cv
    (Some Transformation_new) tt = Done (example_pose, tt).
Proof.
  split; [eexists; reflexivity|]. split; [reflexivity|]. split; [reflexivity|].
  destruct (convertOrbSlamPoseToKindr_checks (Ext := example_ext) example_T_cv
              (Some Transformation_new) tt) as (_ & _ & _ & _ & Hdone & Hconv).
  split.
  - apply Hdone; [eexists; reflexivity|reflexivity|reflexivity].
  - destruct Hconv as (M & Hdata & Hrun);
      [eexists; reflexivity|reflexivity|reflexivity|].
    rewrite Hrun. destruct M. simpl in Hdata.
    injection Hdata as <- <- <- <- <- <- <- <- <- <- <- <- <- <- <- <-.
    reflexivity.
Defined.

(** * Further properties of the methods *)

Section Further.

Context `{Ext : External}.

Local Open Scope method_scope.

(** ** The loop of [publishPointCloud] *)

Lemma cloud_loop_skipped (mapPoints : list (option (MapPoint F32)))
    (locals : PointXYZRGB F32 * PointCloud F32) :
  cloud_loop mapPoints locals =
    cloud_loop (List.filter in_cloud mapPoints) locals.
Proof.
  revert locals. induction mapPoints as [|mp rest IH]; intros locals.
  - reflexivity.
  - cbn [cloud_loop List.filter]. destruct (in_cloud mp) eqn:E.
    + cbn [cloud_loop]. destruct (cloud_loop_body mp locals); [apply IH|reflexivity].
    + rewrite (cloud_loop_body_skip mp locals E). apply IH.
Qed.

(** X1: the null pointers and the map points without a world position do
    not influence [publishPointCloud] in any way: it does on the whole list
    what it does on the list without them. *)
Theorem publishPointCloud_ignores_skipped
    (mapPoints : list (option (MapPoint F32))) (header : Header) (s : State) :
  publishPointCloud mapPoints header s =
    publishPointCloud (List.filter in_cloud mapPoints) header s.
Proof.
  unfold publishPointCloud, bind.
  rewrite (cloud_loop_skipped mapPoints). reflexivity.
Qed.

Lemma at_in_total {A : Type} (m : Mat A) (i : nat) (v : A) :
  at_ m i = Some v -> Z.of_nat i < total m.
Proof.
  destruct m as [rs cs d ok]. unfold at_, total. simpl. intros Hv.
  unfold Mat_sizes_ok in ok.
  apply andb_prop in ok. destruct ok as [_ ok]. apply Z.eqb_eq in ok.
  assert (i < length d)%nat by (apply nth_error_Some; congruence). lia.
Qed.

(** The loop, one entry further: it stops in an entry that is too short,
    skips one that is not in the cloud, and otherwise pushes the point of
    the entry. *)
Lemma cloud_loop_body_cases (mp : option (MapPoint F32))
    (pt : PointXYZRGB F32) (c : PointCloud F32) :
  if short_position mp then cloud_loop_body mp (pt, c) = None
  else if in_cloud mp then
    exists p w0 w1 w2,
      mp = Some p /\
      at_ (GetWorldPos p) 0 = Some w0 /\ at_ (GetWorldPos p) 1 = Some w1 /\
      at_ (GetWorldPos p) 2 = Some w2 /\
      cloud_loop_body mp (pt, c) =
        Some ({| x := w0; y := w1; z := w2;
                 r := 255; g := 255; b := 255; a := a pt |},
              push_back c {| x := w0; y := w1; z := w2;
                             r := 255; g := 255; b := 255; a := a pt |})
  else cloud_loop_body mp (pt, c) = Some (pt, c).
Proof.
  destruct mp as [p|]; simpl; [|reflexivity].
  destruct (empty (GetWorldPos p)) eqn:Ee; simpl; [reflexivity|].
  destruct (Z.ltb_spec (total (GetWorldPos p)) 3) as [Hlt|Hge].
  - destruct (at_ (GetWorldPos p) 2) as [w2|] eqn:E2.
    + apply at_in_total in E2. simpl in E2. lia.
    + destruct (at_ (GetWorldPos p) 0), (at_ (GetWorldPos p) 1); reflexivity.
  - destruct (at_in_range (GetWorldPos p) 0) as [w0 H0]; [simpl; lia|].
    destruct (at_in_range (GetWorldPos p) 1) as [w1 H1]; [simpl; lia|].
    destruct (at_in_range (GetWorldPos p) 2) as [w2 H2]; [simpl; lia|].
    exists p, w0, w1, w2. rewrite H0, H1, H2. repeat split.
Qed.

Lemma points_from_cases (alpha : Z) (mp : option (MapPoint F32))
    (rest : list (option (MapPoint F32))) :
  if short_position mp then points_from alpha (mp :: rest) = None
  else if in_cloud mp then
    exists p w0 w1 w2,
      mp = Some p /\
      at_ (GetWorldPos p) 0 = Some w0 /\ at_ (GetWorldPos p) 1 = Some w1 /\
      at_ (GetWorldPos p) 2 = Some w2 /\
      points_from alpha (mp :: rest) =
        match points_from alpha rest with
        | Some pts => Some ({| x := w0; y := w1; z := w2;
                               r := 255; g := 255; b := 255; a := alpha |} :: pts)
        | None => None
        end
  else points_from alpha (mp :: rest) = points_from alpha rest.
Proof.
  pose proof (cloud_loop_body_cases mp PointXYZRGB_new PointCloud_new) as H.
  destruct (short_position mp) eqn:Es.
  - destruct mp as [p|]; [|discriminate Es]. simpl in *.
    destruct (empty (GetWorldPos p)); [discriminate Es|]. simpl in *.
    destruct (at_ (GetWorldPos p) 0), (at_ (GetWorldPos p) 1),
      (at_ (GetWorldPos p) 2); try reflexivity; discriminate H.
  - destruct (in_cloud mp) eqn:Ei.
    + destruct H as (p & w0 & w1 & w2 & -> & H0 & H1 & H2 & _).
      exists p, w0, w1, w2. cbn [points_from]. rewrite Ei, H0, H1, H2.
      repeat split.
    + cbn [points_from]. rewrite Ei. reflexivity.
Qed.

(** The loop and [points_from] agree: the loop fails where [points_from]
    does, and otherwise appends its points, and nothing else, to the
    cloud; the fourth channel of [point] stays as it was. *)
Lemma cloud_loop_points_from (mapPoints : list (option (MapPoint F32))) :
  forall (pt : PointXYZRGB F32) (c : PointCloud F32),
  match cloud_loop mapPoints (pt, c), points_from (a pt) mapPoints with
  | Some (pt', c'), Some pts =>
      a pt' = a pt /\
      c' = {| points := points c ++ pts; width := width c;
              height := height c; is_dense := is_dense c |}
  | None, None => True
  | _, _ => False
  end.
Proof.
  induction mapPoints as [|mp rest IH]; intros pt c.
  - simpl. split; [reflexivity|]. rewrite app_nil_r. destruct c. reflexivity.
  - pose proof (cloud_loop_body_cases mp pt c) as Hb.
    pose proof (points_from_cases (a pt) mp rest) as Hp.
    cbn [cloud_loop].
    destruct (short_position mp).
    + rewrite Hb, Hp. exact I.
    + destruct (in_cloud mp).
      * destruct Hb as (p & w0 & w1 & w2 & -> & H0 & H1 & H2 & ->).
        destruct Hp as (p' & v0 & v1 & v2 & Hpp & G0 & G1 & G2 & ->).
        injection Hpp as <-.
        rewrite H0 in G0. rewrite H1 in G1. rewrite H2 in G2.
        injection G0 as <-. injection G1 as <-. injection G2 as <-.
        specialize (IH {| x := w0; y := w1; z := w2;
                          r := 255; g := 255; b := 255; a := a pt |}
                       (push_back c {| x := w0; y := w1; z := w2;
                                       r := 255; g := 255; b := 255;
                                       a := a pt |})).
        cbn [a] in IH.
        destruct (cloud_loop rest _) as [[pt' c']|],
          (points_from (a pt) rest) as [pts|]; try exact IH.
        destruct IH as [Ha ->]. split; [exact Ha|].
        simpl. rewrite <- app_assoc. reflexivity.
      * rewrite Hb, Hp. apply IH.
Qed.

Lemma built_cloud_points_from (mapPoints : list (option (MapPoint F32))) :
  built_cloud mapPoints =
    match points_from (a PointXYZRGB_new) mapPoints with
    | Some pts => Some {| points := pts; width := 0; height := 0;
                          is_dense := true |}
    | None => None
    end.
Proof.
  unfold built_cloud.
  pose proof (cloud_loop_points_from mapPoints PointXYZRGB_new PointCloud_new)
    as H.
  destruct (cloud_loop mapPoints _) as [[pt' c']|],
    (points_from _ mapPoints) as [pts|]; try contradiction; [|reflexivity].
  destruct H as [_ ->]. reflexivity.
Qed.

Lemma points_from_short (alpha : Z) (mapPoints : list (option (MapPoint F32))) :
  existsb short_position mapPoints =
    match points_from alpha mapPoints with Some _ => false | None => true end.
Proof.
  induction mapPoints as [|mp rest IH]; [reflexivity|].
  pose proof (points_from_cases alpha mp rest) as Hp.
  cbn [existsb]. destruct (short_position mp).
  - rewrite Hp. reflexivity.
  - cbn [orb]. destruct (in_cloud mp).
    + destruct Hp as (p & w0 & w1 & w2 & _ & _ & _ & _ & ->).
      rewrite IH. destruct (points_from alpha rest); reflexivity.
    + rewrite Hp. exact IH.
Qed.

Lemma points_from_app (alpha : Z) (l1 l2 : list (option (MapPoint F32))) :
  points_from alpha (l1 ++ l2) =
    match points_from alpha l1, points_from alpha l2 with
    | Some p1, Some p2 => Some (p1 ++ p2)%list
    | _, _ => None
    end.
Proof.
  induction l1 as [|mp rest IH].
  - simpl. destruct (points_from alpha l2); reflexivity.
  - pose proof (points_from_cases alpha mp rest) as H1.
    pose proof (points_from_cases alpha mp (rest ++ l2)) as H2.
    rewrite <- app_comm_cons.
    destruct (short_position mp).
    + rewrite H1, H2. reflexivity.
    + destruct (in_cloud mp).
      * destruct H1 as (p & w0 & w1 & w2 & -> & H0 & H1 & H2' & ->).
        destruct H2 as (p' & v0 & v1 & v2 & Hpp & G0 & G1 & G2 & ->).
        injection Hpp as <-.
        rewrite H0 in G0. rewrite H1 in G1. rewrite H2' in G2.
        injection G0 as <-. injection G1 as <-. injection G2 as <-.
        rewrite IH.
        destruct (points_from alpha rest), (points_from alpha l2); reflexivity.
      * rewrite H1, H2. exact IH.
Qed.

(** X2: [publishPointCloud] as a function of its input. The loop with its
    reused [point] is a map over the entries that are not skipped: the
    message is made of a cloud whose points are [points_from] of the list,
    each with the fourth channel of a default point, and whose width and
    height are still 0; it is published whatever the number of points,
    also none. Where an entry is too short the behaviour is undefined. *)
Theorem publishPointCloud_as_function
    (mapPoints : list (option (MapPoint F32))) (header : Header) (s : State) :
  publishPointCloud mapPoints header s =
    match points_from (a PointXYZRGB_new) mapPoints with
    | Some pts =>
        publish (cloud_pub_ (this s))
          (PointCloud2M
             (cloud_message {| points := pts; width := 0; height := 0;
                               is_dense := true |} header)) s
    | None => Undefined
    end.
Proof.
  pose proof (built_cloud_points_from mapPoints) as H.
  unfold built_cloud in H. unfold publishPointCloud, bind, defined.
  destruct (cloud_loop mapPoints _) as [[pt' c']|],
    (points_from _ mapPoints) as [pts|]; try discriminate H; [|reflexivity].
  injection H as ->. reflexivity.
Qed.

(** X3: [publishPointCloud] reads past the end of a world position, and
    only then behaves in an undefined way, exactly when the list holds a
    map point whose world position is not empty and has fewer than three
    elements; the header, the object and the node play no part in it. *)
Theorem publishPointCloud_undefined_iff_short
    (mapPoints : list (option (MapPoint F32))) (header : Header) (s : State) :
  is_undefined (publishPointCloud mapPoints header s) =
    existsb short_position mapPoints.
Proof.
  rewrite (points_from_short (a PointXYZRGB_new)).
  pose proof (built_cloud_points_from mapPoints) as H.
  unfold built_cloud in H. unfold publishPointCloud, bind, defined.
  destruct (cloud_loop mapPoints _) as [[pt' c']|],
    (points_from _ mapPoints) as [pts|]; try discriminate H; [|reflexivity].
  unfold ret, gets, publish. simpl.
  destruct (cloud_pub_ (this s)); reflexivity.
Qed.

(** X4: the cloud of two lists one after the other has the points of the
    first followed by the points of the second, and there is a cloud for
    the whole exactly when there is one for each part. *)
Theorem built_cloud_app (l1 l2 : list (option (MapPoint F32))) :
  built_cloud (l1 ++ l2) =
    match built_cloud l1, built_cloud l2 with
    | Some c1, Some c2 =>
        Some {| points := points c1 ++ points c2; width := 0; height := 0;
                is_dense := true |}
    | _, _ => None
    end.
Proof.
  rewrite !built_cloud_points_from, points_from_app.
  destruct (points_from (a PointXYZRGB_new) l1),
    (points_from (a PointXYZRGB_new) l2); reflexivity.
Qed.

(** ** Parameters *)

Lemma log_param_requests_rest (names : list string) (n : Ros) :
  param_server (log_param_requests names n) = param_server n /\
  advertised (log_param_requests names n) = advertised n /\
  timers (log_param_requests names n) = timers n /\
  published (log_param_requests names n) = published n /\
  broadcast (log_param_requests names n) = broadcast n /\
  clock (log_param_requests names n) = clock n.
Proof.
  unfold log_param_requests. revert n.
  induction names as [|name names IH]; intros n; simpl.
  - repeat split.
  - destruct (IH (log_param_request name n)) as (-> & -> & -> & -> & -> & ->).
    repeat split.
Qed.

(** What ends a run of [getParametersFromRos], and in which state. *)
Lemma getParametersFromRos_done (s s' : State) :
  getParametersFromRos s = Done (tt, s') ->
  exists voc settings,
    string_param (ros s)
      (resolveName (nh_private_ (this s)) "vocabulary_file_path") = Some voc /\
    string_param (ros s)
      (resolveName (nh_private_ (this s)) "settings_file_path") =
      Some settings /\
    this s' = with_parameters (this s) (ros s) voc settings /\
    ros s' = log_param_requests
               (map (resolveName (nh_private_ (this s)))
                  (required_params ++ optional_params)) (ros s).
Proof.
  rewrite getParametersFromRos_run. cbn zeta.
  destruct (string_param _ _) as [voc|]; [|discriminate].
  destruct (string_param _ _) as [settings|]; [|discriminate].
  intros H. injection H as <-. exists voc, settings. repeat split.
Qed.

Lemma with_parameters_frame (o : OrbSlam2Interface) (n : Ros)
    (voc settings : string) :
  let o' := with_parameters o n voc settings in
  nh_ o' = nh_ o /\ nh_private_ o' = nh_private_ o /\
  T_pub_ o' = T_pub_ o /\ pose_pub_ o' = pose_pub_ o /\
  cloud_pub_ o' = cloud_pub_ o /\ tf_timer_ o' = tf_timer_ o /\
  T_W_C_ o' = T_W_C_ o /\
  verbose_ o' =
    default (verbose_ o) (bool_param n (resolveName (nh_private_ o) "verbose")) /\
  frame_id_ o' =
    default (frame_id_ o)
      (string_param n (resolveName (nh_private_ o) "frame_id")) /\
  child_frame_id_ o' =
    default (child_frame_id_ o)
      (string_param n (resolveName (nh_private_ o) "child_frame_id")).
Proof.
  cbn zeta. unfold with_parameters.
  destruct (string_param n (resolveName (nh_private_ o) "child_frame_id")),
    (string_param n (resolveName (nh_private_ o) "frame_id")),
    (bool_param n (resolveName (nh_private_ o) "verbose"));
    repeat split.
Qed.

(** X5: of the two checks of [getParametersFromRos] the first that fails
    is the one reported: without a vocabulary path the run ends in the
    vocabulary check, whether or not there is a settings path; with a
    vocabulary path and without a settings path it ends in the settings
    check. *)
Theorem getParametersFromRos_first_missing (s : State) :
  (string_param (ros s)
     (resolveName (nh_private_ (this s)) "vocabulary_file_path") = None ->
   getParametersFromRos s = Fatal vocabulary_check) /\
  (is_Some (string_param (ros s)
              (resolveName (nh_private_ (this s)) "vocabulary_file_path")) ->
   string_param (ros s)
     (resolveName (nh_private_ (this s)) "settings_file_path") = None ->
   getParametersFromRos s = Fatal settings_check).
Proof.
  rewrite getParametersFromRos_run. cbn zeta. split.
  - intros ->. reflexivity.
  - intros [voc ->] ->. reflexivity.
Qed.

(** X6: after a run of [getParametersFromRos] that returns, the member of
    each optional parameter holds the value retrieved for it, when there
    is one of the type of the member, and the value it had otherwise (so a
    parameter of another type is ignored, as an absent one is). *)
Theorem getParametersFromRos_optional_values (s s' : State) :
  getParametersFromRos s = Done (tt, s') ->
  verbose_ (this s') =
    default (verbose_ (this s))
      (bool_param (ros s) (resolveName (nh_private_ (this s)) "verbose")) /\
  frame_id_ (this s') =
    default (frame_id_ (this s))
      (string_param (ros s) (resolveName (nh_private_ (this s)) "frame_id")) /\
  child_frame_id_ (this s') =
    default (child_frame_id_ (this s))
      (string_param (ros s)
         (resolveName (nh_private_ (this s)) "child_frame_id")).
Proof.
  intros H. apply getParametersFromRos_done in H.
  destruct H as (voc & settings & _ & _ & -> & _).
  destruct (with_parameters_frame (this s) (ros s) voc settings)
    as (_ & _ & _ & _ & _ & _ & _ & Hv & Hf & Hc).
  repeat split; assumption.
Qed.

(** X7: [getParametersFromRos] touches nothing but the five members it
    reads parameters into and the log of requests: the node handles, the
    publishers, the timer and the stored pose are as before, and so are
    the parameter server, the advertisements, the timers, the published
    messages, the broadcast transforms and the clock. *)
Theorem getParametersFromRos_frame (s s' : State) :
  getParametersFromRos s = Done (tt, s') ->
  (nh_ (this s') = nh_ (this s) /\
   nh_private_ (this s') = nh_private_ (this s) /\
   T_pub_ (this s') = T_pub_ (this s) /\
   pose_pub_ (this s') = pose_pub_ (this s) /\
   cloud_pub_ (this s') = cloud_pub_ (this s) /\
   tf_timer_ (this s') = tf_timer_ (this s) /\
   T_W_C_ (this s') = T_W_C_ (this s)) /\
  (param_server (ros s') = param_server (ros s) /\
   advertised (ros s') = advertised (ros s) /\
   timers (ros s') = timers (ros s) /\
   published (ros s') = published (ros s) /\
   broadcast (ros s') = broadcast (ros s) /\
   clock (ros s') = clock (ros s)).
Proof.
  intros H. apply getParametersFromRos_done in H.
  destruct H as (voc & settings & _ & _ & -> & ->). split.
  - destruct (with_parameters_frame (this s) (ros s) voc settings)
      as (H1 & H2 & H3 & H4 & H5 & H6 & H7 & _).
    repeat split; assumption.
  - apply log_param_requests_rest.
Qed.

Lemma string_param_same_server (n1 n2 : Ros) (name : string) :
  param_server n1 !! name = param_server n2 !! name ->
  string_param n1 name = string_param n2 name.
Proof. unfold string_param. intros ->. reflexivity. Qed.

Lemma bool_param_same_server (n1 n2 : Ros) (name : string) :
  param_server n1 !! name = param_server n2 !! name ->
  bool_param n1 name = bool_param n2 name.
Proof. unfold bool_param. intros ->. reflexivity. Qed.

Lemma with_parameters_same_server (o : OrbSlam2Interface) (n1 n2 : Ros)
    (voc settings : string) :
  same_parameters (nh_private_ o) n1 n2 ->
  with_parameters o n1 voc settings = with_parameters o n2 voc settings.
Proof.
  unfold same_parameters, required_params, optional_params. simpl.
  intros H. inversion_clear H as [|? ? _ H1]. inversion_clear H1 as [|? ? _ H2].
  inversion_clear H2 as [|? ? Hv H3]. inversion_clear H3 as [|? ? Hf H4].
  inversion_clear H4 as [|? ? Hc _].
  unfold with_parameters.
  rewrite (string_param_same_server n1 n2 _ Hc),
    (string_param_same_server n1 n2 _ Hf),
    (bool_param_same_server n1 n2 _ Hv).
  reflexivity.
Qed.

(** X8: [getParametersFromRos] depends on the parameter server through the
    five names only: on two nodes whose servers agree on them it ends in
    the same way, in the same check or with the same members. *)
Theorem getParametersFromRos_five_names (o : OrbSlam2Interface) (n1 n2 : Ros) :
  same_parameters (nh_private_ o) n1 n2 ->
  match getParametersFromRos {| this := o; ros := n1 |},
        getParametersFromRos {| this := o; ros := n2 |} with
  | Done (_, s1), Done (_, s2) => this s1 = this s2
  | Fatal c1, Fatal c2 => c1 = c2
  | _, _ => False
  end.
Proof.
  intros Hsame. rewrite !getParametersFromRos_run. cbn zeta. cbn [this ros].
  pose proof (with_parameters_same_server o n1 n2) as Hwith.
  specialize (fun voc settings => Hwith voc settings Hsame).
  unfold same_parameters, required_params, optional_params in Hsame.
  simpl in Hsame.
  inversion_clear Hsame as [|? ? Hvoc H1]. inversion_clear H1 as [|? ? Hset _].
  rewrite (string_param_same_server n1 n2 _ Hvoc),
    (string_param_same_server n1 n2 _ Hset).
  destruct (string_param n2 _) as [voc|]; [|reflexivity].
  destruct (string_param n2 _) as [settings|]; [|reflexivity].
  cbn [this]. apply Hwith.
Qed.

(** X9: reading the parameters again changes no member: a second run of
    [getParametersFromRos] after one that returned returns too, with the
    same object. *)
Theorem getParametersFromRos_again (s s1 : State) :
  getParametersFromRos s = Done (tt, s1) ->
  exists s2, getParametersFromRos s1 = Done (tt, s2) /\ this s2 = this s1.
Proof.
  intros H. apply getParametersFromRos_done in H.
  destruct H as (voc & settings & Hvoc & Hset & Hthis & Hros).
  destruct (with_parameters_frame (this s) (ros s) voc settings)
    as (_ & Hnh & _).
  destruct (log_param_requests_rest
              (map (resolveName (nh_private_ (this s)))
                 (required_params ++ optional_params)) (ros s))
    as (Hserver & _).
  rewrite <- Hros in Hserver. cbn zeta in Hnh. rewrite <- Hthis in Hnh.
  rewrite getParametersFromRos_run. cbn zeta.
  unfold string_param in *. unfold with_parameters in *.
  unfold bool_param, string_param in *.
  rewrite Hnh, Hserver. rewrite Hvoc, Hset.
  eexists. split; [reflexivity|]. cbn [this].
  rewrite Hthis.
  destruct (param_server (ros s) !! resolveName (nh_private_ (this s)) "child_frame_id")
    as [[]|],
    (param_server (ros s) !! resolveName (nh_private_ (this s)) "frame_id")
    as [[]|],
    (param_server (ros s) !! resolveName (nh_private_ (this s)) "verbose")
    as [[]|]; reflexivity.
Qed.

(** ** The constructor *)

(** The object and the node the constructor returns. *)
Lemma OrbSlam2Interface_new_done (nh nh_private : NodeHandle) (n n' : Ros)
    (o : OrbSlam2Interface) :
  OrbSlam2Interface_new nh nh_private n = Done (o, n') ->
  (nh_ o = nh /\ nh_private_ o = nh_private /\
   T_pub_ o = Some (transform_cam_adv o) /\
   pose_pub_ o = Some (pose_cam_adv o) /\
   cloud_pub_ o = Some (keypoints_cloud_adv o) /\
   tf_timer_ o = Some (tf_timer_request o) /\
   T_W_C_ o = Transformation_new /\
   verbose_ o =
     default kDefaultVerbose (bool_param n (resolveName nh_private "verbose")) /\
   frame_id_ o =
     default kDefaultFrameId
       (string_param n (resolveName nh_private "frame_id")) /\
   child_frame_id_ o =
     default kDefaultChildFrameId
       (string_param n (resolveName nh_private "child_frame_id"))) /\
  n' = log_param_requests
         (map (resolveName nh_private) (required_params ++ optional_params))
         (node_with_topics o n).
Proof.
  unfold OrbSlam2Interface_new, bind. rewrite advertiseTopics_run.
  cbn [this ros].
  destruct (getParametersFromRos _) as [[[] s1]| |] eqn:Erun; try discriminate.
  intros H. injection H as <- <-.
  apply getParametersFromRos_done in Erun.
  destruct Erun as (voc & settings & _ & _ & Hthis & Hros).
  cbn [this ros] in *.
  match type of Hthis with
  | _ = with_parameters ?o0 ?n0 _ _ =>
      pose proof (with_parameters_frame o0 n0 voc settings) as Hframe
  end.
  cbn zeta in Hframe. rewrite <- Hthis in Hframe.
  destruct Hframe as (Hnh & Hnhp & HT & HP & HC & Htimer & Hpose & Hv & Hf & Hc).
  cbn in Hnh, Hnhp, HT, HP, HC, Htimer, Hpose.
  split.
  - unfold transform_cam_adv, pose_cam_adv, keypoints_cloud_adv,
      tf_timer_request. rewrite Hnh, Hnhp.
    repeat split; assumption.
  - rewrite Hros. unfold node_with_topics, tf_timer_request,
      keypoints_cloud_adv, pose_cam_adv, transform_cam_adv.
    rewrite Hnh, Hnhp. reflexivity.
Qed.


(** X11: the frames of a constructed object come from the parameters. The
    frame_id parameter (or [kDefaultFrameId]) is the parent frame and the
    child_frame_id parameter (or [kDefaultChildFrameId]) the child frame
    of the transform a firing of the timer broadcasts, of the default pose
    as long as none is stored; the child_frame_id parameter is also the
    child_frame_id of the message [publishCurrentPose] publishes, whose
    header is the given one. *)
Theorem constructed_frames (nh nh_private : NodeHandle) (n n' : Ros)
    (o : OrbSlam2Interface) (T : Transformation) (header : Header)
    (now : Time) (event : TimerEvent) :
  OrbSlam2Interface_new nh nh_private n = Done (o, n') ->
  fire_tf_timer now event {| this := o; ros := n' |} =
    Done (tt,
          on_ros (log_broadcast
                    {| st_transform := transformKindrToTF Transformation_new;
                       stamp_ := now;
                       frame_id_of :=
                         default kDefaultFrameId
                           (string_param n (resolveName nh_private "frame_id"));
                       child_frame_id_of :=
                         default kDefaultChildFrameId
                           (string_param n
                              (resolveName nh_private "child_frame_id")) |})
            (on_ros (set_clock now) {| this := o; ros := n' |})) /\
  publishCurrentPose T header {| this := o; ros := n' |} =
    Done (tt,
          on_ros (log_published (transform_cam_adv o)
                    (TransformStampedM
                       {| ts_header := header;
                          child_frame_id :=
                            default kDefaultChildFrameId
                              (string_param n
                                 (resolveName nh_private "child_frame_id"));
                          transform := transformKindrToMsg T |}))
            {| this := o; ros := n' |}).
Proof.
  intros H. apply OrbSlam2Interface_new_done in H.
  destruct H as [(_ & _ & HT & _ & _ & Htimer & Hpose & _ & Hf & Hc) _].
  split.
  - rewrite (fire_tf_timer_run _ now event (tf_timer_request o)) by exact Htimer.
    unfold current_pose_stamped. cbn [this]. rewrite Hpose, Hf, Hc.
    reflexivity.
  - unfold publishCurrentPose, bind, gets, publish. cbn [this].
    rewrite HT, Hc. reflexivity.
Qed.

(** ** The conversion of a pose, continued *)

Lemma data_4x4 {A : Type} (m : Mat A) :
  rows m = 4 -> cols m = 4 -> length (data m) = 16%nat.
Proof.
  destruct m as [rs cs d ok]. simpl. intros -> ->.
  unfold Mat_sizes_ok in ok. simpl in ok. apply Z.eqb_eq in ok. lia.
Qed.

(** X12: [convertOrbSlamPoseToKindr] uses the first three rows of the
    matrix and nothing else: two 4x4 matrices that agree on them give the
    same transformation, whatever their last rows hold and whatever the
    output pointers pointed to before. The last row is not checked to be
    (0, 0, 0, 1). *)
Theorem convertOrbSlamPoseToKindr_three_rows_only {S : Type}
    (T1 T2 : Mat F32) (old1 old2 : Transformation) (s : S) :
  cols T1 = 4 -> rows T1 = 4 -> cols T2 = 4 -> rows T2 = 4 ->
  firstn 12 (data T1) = firstn 12 (data T2) ->
  convertOrbSlamPoseToKindr T1 (Some old1) s =
    convertOrbSlamPoseToKindr T2 (Some old2) s.
Proof.
  intros Hc1 Hr1 Hc2 Hr2 Hrows.
  pose proof (data_4x4 T1 Hr1 Hc1) as Hl1.
  pose proof (data_4x4 T2 Hr2 Hc2) as Hl2.
  unfold convertOrbSlamPoseToKindr, CHECK_NOTNULL, CHECK_EQ, CHECK, bind,
    abort, ret, defined, cv2eigen.
  rewrite Hc1, Hr1, Hc2, Hr2. simpl.
  destruct (data T1) as [|? d1]; [discriminate Hl1|].
  do 15 (destruct d1 as [|? d1]; [discriminate Hl1|]).
  destruct d1; [|discriminate Hl1].
  destruct (data T2) as [|? d2]; [discriminate Hl2|].
  do 15 (destruct d2 as [|? d2]; [discriminate Hl2|]).
  destruct d2; [|discriminate Hl2].
  simpl in Hrows. injection Hrows as -> -> -> -> -> -> -> -> -> -> -> ->.
  reflexivity.
Qed.

(** ** The timer and the publishing methods *)

(** X13: a firing of the timer and a call of a publishing method do not
    interfere: in either order they end in the same way and, when they
    return, in the same state. The firing reads nothing the publishing
    methods write, and the other way round. *)
Theorem timer_and_publishing_commute (now : Time) (event : TimerEvent)
    (T : Transformation) (header : Header)
    (mapPoints : list (option (MapPoint F32))) (s : State) :
  (do fire_tf_timer now event;; publishCurrentPose T header) s =
    (do publishCurrentPose T header;; fire_tf_timer now event) s /\
  (do fire_tf_timer now event;; publishCurrentPoseAsPose T header) s =
    (do publishCurrentPoseAsPose T header;; fire_tf_timer now event) s /\
  (do fire_tf_timer now event;; publishPointCloud mapPoints header) s =
    (do publishPointCloud mapPoints header;; fire_tf_timer now event) s.
Proof.
  destruct s as [[nh nhp Tp Pp Cp tm pose vb voc st fr ch] n].
  unfold fire_tf_timer, publishCurrentPose, publishCurrentPoseAsPose,
    publishPointCloud, run_callback, publishCurrentPoseAsTF, Time_now,
    sendTransform, publish, defined, bind, modify, gets, ret, abort.
  cbn [this ros on_ros on_this tf_timer_ T_pub_ pose_pub_ cloud_pub_].
  destruct (cloud_loop mapPoints (PointXYZRGB_new, PointCloud_new))
    as [[pt c]|];
    destruct tm as [[h p []]|], Tp, Pp, Cp; repeat split.
Qed.

(** X14: the configured [frame_id_] plays no part in what is published:
    with another value in it each of the three publishing methods ends in
    the same way and publishes the same message. Only the transform the
    timer broadcasts carries it. *)
Theorem publishing_ignores_frame_id_ (v : string) (T : Transformation)
    (header : Header) (mapPoints : list (option (MapPoint F32))) (s : State) :
  let with_frame (o : Outcome (unit * State)) :=
    match o with
    | Done (u, s') => Done (u, on_this (set_frame_id_ v) s')
    | Fatal c => Fatal c
    | Undefined => Undefined
    end in
  publishCurrentPose T header (on_this (set_frame_id_ v) s) =
    with_frame (publishCurrentPose T header s) /\
  publishCurrentPoseAsPose T header (on_this (set_frame_id_ v) s) =
    with_frame (publishCurrentPoseAsPose T header s) /\
  publishPointCloud mapPoints header (on_this (set_frame_id_ v) s) =
    with_frame (publishPointCloud mapPoints header s).
Proof.
  destruct s as [[nh nhp Tp Pp Cp tm pose vb voc st fr ch] n].
  unfold publishCurrentPose, publishCurrentPoseAsPose, publishPointCloud,
    publish, defined, bind, modify, gets, ret, abort.
  cbn [this ros on_ros on_this set_frame_id_ T_pub_ pose_pub_ cloud_pub_
       child_frame_id_].
  destruct (cloud_loop mapPoints (PointXYZRGB_new, PointCloud_new))
    as [[pt c]|]; destruct Tp, Pp, Cp; repeat split.
Qed.

End Further.

(** * The further properties at the example node *)

Example getParametersFromRos_reread_example :
  getParametersFromRos (Ext := example_ext) example_constructed =
  Done (tt, example_reread).
Proof. vm_compute. reflexivity. Qed.

Example built_cloud_example :
  built_cloud (Ext := example_ext) example_mapPoints =
  Some {| points := [ {| x := 1%Q; y := 2%Q; z := 3%Q;
                         r := 255; g := 255; b := 255; a := 255 |};
                      {| x := (1 # 2)%Q; y := (-4)%Q; z := 6%Q;
                         r := 255; g := 255; b := 255; a := 255 |} ];
          width := 0; height := 0; is_dense := true |}.
Proof. vm_compute. reflexivity. Qed.

Lemma getParametersFromRos_first_missing_witness :
  (string_param example_node_bare
     (resolveName example_nh_private "vocabulary_file_path") = None /\
   getParametersFromRos (Ext := example_ext) example_bare =
     Fatal vocabulary_check) /\
  (is_Some (string_param example_node_without_settings
              (resolveName example_nh_private "vocabulary_file_path")) /\
   string_param example_node_without_settings
     (resolveName example_nh_private "settings_file_path") = None /\
   getParametersFromRos (Ext := example_ext) example_without_settings =
     Fatal settings_check).
Proof.
  split.
  - split; [vm_compute; reflexivity|].
    apply (getParametersFromRos_first_missing (Ext := example_ext) example_bare).
    vm_compute. reflexivity.
  - split; [eexists; vm_compute; reflexivity|].
    split; [vm_compute; reflexivity|].
    apply (getParametersFromRos_first_missing (Ext := example_ext)
             example_without_settings).
    + eexists. vm_compute. reflexivity.
    + vm_compute. reflexivity.
Defined.

Lemma getParametersFromRos_optional_values_witness :
  getParametersFromRos (Ext := example_ext) example_constructed =
    Done (tt, example_reread) /\
  verbose_ (this example_reread) = true /\
  frame_id_ (this example_reread) = "map" /\
  child_frame_id_ (this example_reread) = "cam0".
Proof.
  split; [vm_compute; reflexivity|].
  apply (getParametersFromRos_optional_values (Ext := example_ext)
           example_constructed example_reread).
  vm_compute. reflexivity.
Defined.

Lemma getParametersFromRos_frame_witness :
  getParametersFromRos (Ext := example_ext) example_constructed =
    Done (tt, example_reread) /\
  T_pub_ (this example_reread) = T_pub_ (this example_constructed) /\
  T_W_C_ (this example_reread) = T_W_C_ (this example_constructed) /\
  advertised (ros example_reread) = advertised (ros example_constructed) /\
  published (ros example_reread) = published (ros example_constructed).
Proof.
  split; [vm_compute; reflexivity|].
  destruct (getParametersFromRos_frame (Ext := example_ext)
              example_constructed example_reread)
    as [(_ & _ & HT & _ & _ & _ & Hpose) (_ & Hadv & _ & Hpub & _)];
    [vm_compute; reflexivity|].
  repeat split; assumption.
Defined.

Lemma getParametersFromRos_five_names_witness :
  same_parameters (Ext := example_ext) example_nh_private example_node
    example_node_more /\
  match getParametersFromRos (Ext := example_ext)
          {| this := example_this; ros := example_node |},
        getParametersFromRos (Ext := example_ext)
          {| this := example_this; ros := example_node_more |} with
  | Done (_, s1), Done (_, s2) => this s1 = this s2
  | Fatal c1, Fatal c2 => c1 = c2
  | _, _ => False
  end.
Proof.
  assert (Hsame : same_parameters (Ext := example_ext) example_nh_private
                    example_node example_node_more)
    by (repeat constructor).
  split; [exact Hsame|].
  exact (getParametersFromRos_five_names (Ext := example_ext) example_this
           example_node example_node_more Hsame).
Defined.

Lemma getParametersFromRos_again_witness :
  getParametersFromRos (Ext := example_ext) example_constructed =
    Done (tt, example_reread) /\
  exists s2,
    getParametersFromRos (Ext := example_ext) example_reread = Done (tt, s2) /\
    this s2 = this example_reread.
Proof.
  split; [vm_compute; reflexivity|].
  apply (getParametersFromRos_again (Ext := example_ext) example_constructed
           example_reread).
  vm_compute. reflexivity.
Defined.


Lemma constructed_frames_witness :
  OrbSlam2Interface_new (Ext := example_ext) example_nh example_nh_private
    example_node = Done (this example_constructed, ros example_constructed) /\
  exists s',
    fire_tf_timer (Ext := example_ext) example_now example_event
      {| this := this example_constructed; ros := ros example_constructed |} =
      Done (tt, s') /\
    map (fun t => (frame_id_of t, child_frame_id_of t)) (broadcast (ros s')) =
      [("map", "cam0")].
Proof.
  split; [vm_compute; reflexivity|].
  destruct (constructed_frames (Ext := example_ext) example_nh
              example_nh_private example_node (ros example_constructed)
              (this example_constructed) example_pose example_header
              example_now example_event) as [Hfire _];
    [vm_compute; reflexivity|].
  eexists. split; [exact Hfire|]. vm_compute. reflexivity.
Defined.

Lemma convertOrbSlamPoseToKindr_three_rows_only_witness :
  cols example_T_cv = 4 /\ rows example_T_cv = 4 /\
  cols example_T_cv_bottom = 4 /\ rows example_T_cv_bottom = 4 /\
  firstn 12 (data example_T_cv) = firstn 12 (data example_T_cv_bottom) /\
  convertOrbSlamPoseToKindr (Ext := example_ext) example_T_cv
    (Some Transformation_new) tt =
  convertOrbSlamPoseToKindr (Ext := example_ext) example_T_cv_bottom
    (Some example_pose) tt.
Proof.
  repeat (split; [reflexivity|]).
  apply (convertOrbSlamPoseToKindr_three_rows_only (Ext := example_ext)
           example_T_cv example_T_cv_bottom Transformation_new example_pose tt);
    reflexivity.
Defined.
